(** * Teller MVP API: the aggregation handler [fetch_all]

    A shallow embedding of [teller_mvp/api/main.py]: the client factory
    [_make_client] and the [/api/fetch] handler [fetch_all], together
    with the Python and httpx behaviour they rely on (truthiness, [or],
    [dict.get], [raise_for_status], [with], [try]/[except]).

    The upstream service is a parameter: a transition function on an
    abstract world.  A run of the handler yields the final world, the
    trace of client events it performed and either a result or the
    exception that leaves the handler. *)

From Stdlib Require Import ZArith String List Bool Lia.
From Stdlib Require Import DecimalString SpecFloat.
Import ListNotations.

Set Warnings "-register-all".
Local Open Scope string_scope.
Local Open Scope Z_scope.

(** ** Python values *)

(** The values [json.loads] produces (request bodies and upstream
    bodies).  [JNull] is Python's [None]; integers are unbounded;
    non-integer numbers are IEEE floats.  A [dict] is kept as an
    association list read by [dict_get] (first binding wins). *)
Inductive json : Type :=
| JNull
| JBool (b : bool)
| JInt (n : Z)
| JFloat (f : spec_float)
| JStr (s : string)
| JList (l : list json)
| JObj (m : list (string * json)).

Definition dict : Type := list (string * json).

(** [bool(v)]: the truth value Python gives [v] in [not v] and [v or w]. *)
Definition truthy (v : json) : bool :=
  match v with
  | JNull => false
  | JBool b => b
  | JInt n => negb (n =? 0)
  | JFloat (S754_zero _) => false
  | JFloat _ => true
  | JStr s => negb (s =? "")%string
  | JList [] => false
  | JList (_ :: _) => true
  | JObj [] => false
  | JObj (_ :: _) => true
  end.

(** [v or w] *)
Definition py_or (v w : json) : json := if truthy v then v else w.

(** [isinstance(v, list)] *)
Definition is_list (v : json) : bool :=
  match v with JList _ => true | _ => false end.

(** [isinstance(v, dict)] *)
Definition is_dict (v : json) : bool :=
  match v with JObj _ => true | _ => false end.

(** [type(v).__name__] *)
Definition type_name (v : json) : string :=
  match v with
  | JNull => "NoneType"
  | JBool _ => "bool"
  | JInt _ => "int"
  | JFloat _ => "float"
  | JStr _ => "str"
  | JList _ => "list"
  | JObj _ => "dict"
  end.

(** [d.get(k)] on a dict: the value bound to [k], [None] when unbound. *)
Fixpoint dict_get (d : dict) (k : string) : json :=
  match d with
  | [] => JNull
  | (k', v) :: d' => if (k =? k')%string then v else dict_get d' k
  end.

(** [str(n)] for an [int]. *)
Definition str_int (n : Z) : string := NilZero.string_of_int (Z.to_int n).

(** ** httpx responses and Python exceptions *)

(** An upstream response: status code, body text, and what [r.json()]
    gives on that text (the decoded value, or the message of the
    decoding error). *)
Record Response : Type := mkResponse {
  status_code : Z;
  text : string;
  json_body : string + json
}.

(** [Response.is_success]: a 2xx status. *)
Definition is_success (r : Response) : bool :=
  (200 <=? status_code r) && (status_code r <=? 299).

Inductive exn : Type :=
| HTTPException (status : Z) (detail : string)
| HTTPStatusError (response : Response)
| RuntimeError (msg : string)
| AttributeError (msg : string)
| JSONDecodeError (msg : string)
| TransportError (msg : string)
| ClientInitError (msg : string).

(** [str(e)].  Starlette prints an [HTTPException] as
    ["{status_code}: {detail}"].  For an [HTTPStatusError] httpx builds
    its message from the status line and the URL, which are not kept
    here; the string below stands for it and is never read:
    [fetch_all] handles those exceptions in its first [except] clause,
    from the response alone. *)
Definition str_exn (e : exn) : string :=
  match e with
  | HTTPException s d => str_int s ++ ": " ++ d
  | HTTPStatusError r => "HTTP status error " ++ str_int (status_code r)
  | RuntimeError m => m
  | AttributeError m => m
  | JSONDecodeError m => m
  | TransportError m => m
  | ClientInitError m => m
  end.

(** ** Configuration *)

(** The module globals as they stand after import: [TELLER_ENV] is
    already lower-cased and stripped, the two paths are [os.getenv]
    results ([None] when unset). *)
Record Config : Type := mkConfig {
  TELLER_ENV : string;
  TELLER_CERT_PATH : option string;
  TELLER_KEY_PATH : option string
}.

Definition TELLER_API_BASE : string := "https://api.teller.io".

(** Truth value of an [Optional[str]]. *)
Definition truthy_opt (o : option string) : bool :=
  match o with
  | None => false
  | Some s => negb (s =? "")%string
  end.

(** [TELLER_ENV in ("development", "production")] *)
Definition requires_mtls (cfg : Config) : bool :=
  (TELLER_ENV cfg =? "development")%string
  || (TELLER_ENV cfg =? "production")%string.

(** ** The client *)

(** What [httpx.Client(...)] is built from: the keyword arguments of
    [common_kwargs] and, under mTLS, [cert], the pair of the two path
    globals. *)
Record Client : Type := mkClient {
  base_url : string;
  auth : json * string;
  timeout : spec_float;
  cert : option (option string * option string)
}.

(** The three request paths of the handler; [Balances i] stands for
    [f"/accounts/{i}/balances"], [Transactions i] for
    [f"/accounts/{i}/transactions"]. *)
Inductive Path : Type :=
| Accounts
| Balances (acct_id : json)
| Transactions (acct_id : json).

Record Request : Type := mkRequest {
  req_client : Client;
  req_path : Path;
  req_params : option dict
}.

(** What the handler does to the outside, in order. *)
Inductive event : Type :=
| EvOpen (c : Client)
| EvGet (req : Request) (res : string + Response)
| EvClose (c : Client).

(** [30.0] *)
Definition timeout_30 : spec_float := S754_finite false 15 1.

(** [httpx.Client(...)], the call that ends both branches of
    [_make_client].  The constructor is outside this file, so what it
    does is a parameter: [new_client c] is [None] when the call with
    the arguments [c] returns the client, and [Some msg] when it raises
    (a token that is not a [str], a token that cannot be encoded, a
    certificate or key file that cannot be loaded), [msg] being the
    [str] of the exception.  Such an exception is of none of the other
    classes of [exn]; it is modelled as [ClientInitError msg]. *)
Definition httpx_Client (new_client : Client -> option string) (c : Client)
  : exn + Client :=
  match new_client c with
  | Some msg => inl (ClientInitError msg)
  | None => inr c
  end.

Definition _make_client (new_client : Client -> option string)
    (cfg : Config) (access_token : json) : exn + Client :=
  let auth := (access_token, "") in
  if requires_mtls cfg then
    if negb (truthy_opt (TELLER_CERT_PATH cfg)) || negb (truthy_opt (TELLER_KEY_PATH cfg)) then
      inl (RuntimeError
             "TELLER_CERT_PATH and TELLER_KEY_PATH are required in development/production.")
    else
      httpx_Client new_client
        (mkClient TELLER_API_BASE auth timeout_30
           (Some (TELLER_CERT_PATH cfg, TELLER_KEY_PATH cfg)))
  else
    (* sandbox: no cert required *)
    httpx_Client new_client (mkClient TELLER_API_BASE auth timeout_30 None).

(** ** The response body of [/api/fetch] *)

Record AccountOut : Type := mkAccountOut {
  out_id : json;
  out_name : json;
  out_institution : json;
  out_last_four : json;
  out_type : json
}.

Record BalanceOut : Type := mkBalanceOut {
  out_available : json;
  out_ledger : json
}.

Record AccountResult : Type := mkAccountResult {
  account : AccountOut;
  balance : BalanceOut;
  transactions : list json
}.

Record FetchResponse : Type := mkFetchResponse {
  accounts : list AccountResult
}.

(** [v.get(k)] on an arbitrary value: only a dict has the method. *)
Definition py_get (v : json) (k : string) : exn + json :=
  match v with
  | JObj d => inr (dict_get d k)
  | _ => inl (AttributeError ("'" ++ type_name v ++ "' object has no attribute 'get'"))
  end.

(** [(acct.get("institution") or {}).get("name")] *)
Definition institution_name (acct : json) : exn + json :=
  match py_get acct "institution" with
  | inl e => inl e
  | inr inst => py_get (py_or inst (JObj [])) "name"
  end.

(** [transactions if isinstance(transactions, list) else []] *)
Definition transactions_or_empty (v : json) : list json :=
  match v with JList l => l | _ => [] end.

(** The clauses of [fetch_all]'s [try]: what each exception reaching
    them is turned into. *)
Definition except_clauses (e : exn) : exn :=
  match e with
  | HTTPStatusError r =>
      HTTPException (status_code r)
        ("Teller API error [" ++ str_int (status_code r) ++ "]: " ++ text r)
  | _ => HTTPException 500 (str_exn e)
  end.

(** ** The handler, over an arbitrary upstream *)

Section Handler.

(** What the constructor of the client does with its arguments (see
    [httpx_Client]). *)
Variable new_client : Client -> option string.

(** The upstream service and the network in front of it: a request
    changes the world and comes back as a response, or fails in
    transport with the message of the exception httpx raises. *)
Variable World : Type.
Variable send : World -> Request -> World * (string + Response).

(** One run of a piece of the handler. *)
Record Run (A : Type) : Type := mkRun {
  world_after : World;
  events : list event;
  result : exn + A
}.
Arguments mkRun {A}.
Arguments world_after {A}.
Arguments events {A}.
Arguments result {A}.

Definition M (A : Type) : Type := World -> Run A.

Definition ret {A} (a : A) : M A := fun w => mkRun w [] (inr a).

Definition raise {A} (e : exn) : M A := fun w => mkRun w [] (inl e).

Definition bind {A B} (m : M A) (k : A -> M B) : M B :=
  fun w =>
    let r := m w in
    match result r with
    | inl e => mkRun (world_after r) (events r) (inl e)
    | inr a =>
        let r' := k a (world_after r) in
        mkRun (world_after r') (events r ++ events r') (result r')
    end.

Definition lift {A} (x : exn + A) : M A :=
  match x with inl e => raise e | inr a => ret a end.

Notation "x <- m ;; k" := (bind m (fun x => k))
  (at level 61, m at next level, right associativity).
Notation "m ;;; k" := (bind m (fun _ => k))
  (at level 61, right associativity).

(** [client.get(path, params=params)] *)
Definition client_get (client : Client) (path : Path) (params : option dict)
  : M Response :=
  fun w =>
    let req := mkRequest client path params in
    let '(w', res) := send w req in
    mkRun w' [EvGet req res]
      match res with
      | inl msg => inl (TransportError msg)
      | inr r => inr r
      end.

(** [r.raise_for_status()] *)
Definition raise_for_status (r : Response) : M unit :=
  if is_success r then ret tt else raise (HTTPStatusError r).

(** [r.json()] *)
Definition response_json (r : Response) : M json :=
  match json_body r with
  | inl msg => raise (JSONDecodeError msg)
  | inr v => ret v
  end.

(** [with mk as client: body]: the client is closed on every way out
    of the body; nothing is opened when the factory raises. *)
Definition with_client {A} (mk : exn + Client) (body : Client -> M A) : M A :=
  match mk with
  | inl e => raise e
  | inr c =>
      fun w =>
        let r := body c w in
        mkRun (world_after r) (EvOpen c :: events r ++ [EvClose c]) (result r)
  end.

(** [try: m  except ...] with the clauses of [fetch_all]. *)
Definition try_except {A} (m : M A) : M A :=
  fun w =>
    let r := m w in
    match result r with
    | inl e => mkRun (world_after r) (events r) (inl (except_clauses e))
    | inr a => r
    end.

(** [for x in l: acc = body acc x] *)
Fixpoint for_each {A B} (body : B -> A -> M B) (acc : B) (l : list A) : M B :=
  match l with
  | [] => ret acc
  | x :: l' => acc' <- body acc x ;; for_each body acc' l'
  end.

(** The body of the loop over [accounts]; [results] comes back
    unchanged on [continue], with one more entry otherwise. *)
Definition fetch_account (client : Client) (max_count : json)
    (results : list AccountResult) (acct : json) : M (list AccountResult) :=
  acct_id <- lift (py_get acct "id") ;;
  if negb (truthy acct_id) then
    (* skip malformed *)
    ret results
  else
    (* 2) balances *)
    rb <- client_get client (Balances acct_id) None ;;
    raise_for_status rb ;;;
    balance <- response_json rb ;;
    (* 3) transactions *)
    let params := [("count", max_count)] in
    rt <- client_get client (Transactions acct_id) (Some params) ;;
    raise_for_status rt ;;;
    transactions <- response_json rt ;;
    name <- lift (py_get acct "name") ;;
    institution <- lift (institution_name acct) ;;
    last_four <- lift (py_get acct "last_four") ;;
    type <- lift (py_get acct "type") ;;
    available <- lift (py_get (py_or balance (JObj [])) "available") ;;
    ledger <- lift (py_get (py_or balance (JObj [])) "ledger") ;;
    ret (results ++
           [mkAccountResult
              (mkAccountOut acct_id name institution last_four type)
              (mkBalanceOut available ledger)
              (transactions_or_empty transactions)])%list.

(** The body of the [with] statement of [fetch_all]. *)
Definition fetch_all_with_body (max_count : json) (client : Client)
  : M (list AccountResult) :=
  (* 1) list accounts *)
  r <- client_get client Accounts None ;;
  raise_for_status r ;;;
  accounts <- response_json r ;;
  match accounts with
  | JList entries => for_each (fetch_account client max_count) [] entries
  | _ => raise (HTTPException 502 "Unexpected accounts payload")
  end.

Definition fetch_all (cfg : Config) (payload : dict) : M FetchResponse :=
  let access_token := dict_get (match payload with [] => [] | _ => payload end) "accessToken" in
  if negb (truthy access_token) then
    raise (HTTPException 400 "Missing 'accessToken' in request body")
  else
    let max_count :=
      py_or (dict_get (match payload with [] => [] | _ => payload end) "count") (JInt 50) in
    try_except
      (results <-
         with_client (_make_client new_client cfg access_token) (fetch_all_with_body max_count) ;;
       ret (mkFetchResponse results)).

End Handler.

Arguments mkRun {World A}.
Arguments world_after {World A}.
Arguments events {World A}.
Arguments result {World A}.
Arguments ret {World A}.
Arguments raise {World A}.
Arguments bind {World A B}.
Arguments lift {World A}.
Arguments client_get {World}.
Arguments raise_for_status {World}.
Arguments response_json {World}.
Arguments with_client {World A}.
Arguments try_except {World A}.
Arguments for_each {World A B}.
Arguments fetch_account {World}.
Arguments fetch_all_with_body {World}.
Arguments fetch_all new_client {World}.

(** ** Vocabulary of the statements *)

(** The key [k] is bound in the dict. *)
Definition has_key (d : dict) (k : string) : Prop := In k (map fst d).

(** The event is a request answered by [resp], whose status is
    outside 2xx. *)
Definition failed_get (ev : event) (resp : Response) : Prop :=
  (exists req, ev = EvGet req (inr resp)) /\ is_success resp = false.

(** A run raises [HTTPStatusError resp] exactly when one of its
    requests was answered by [resp] with a status outside 2xx. *)
Definition status_faithful {World A} (r : Run World A) : Prop :=
  forall resp,
    (exists ev, In ev (events r) /\ failed_get ev resp)
    <-> result r = inl (HTTPStatusError resp).

(** The event, if it is a transactions request, has [{"count": c}] as
    its params. *)
Definition carries_count (c : json) (ev : event) : Prop :=
  match ev with
  | EvGet req _ =>
      match req_path req with
      | Transactions _ => req_params req = Some [("count", c)]
      | _ => True
      end
  | _ => True
  end.

(** What a run leaves behind apart from its trace. *)
Definition outcome {World A} (r : Run World A) : World * (exn + A) :=
  (world_after r, result r).

(** Two requests that differ at most in the credentials. *)
Definition same_but_auth (req req' : Request) : Prop :=
  req_path req = req_path req'
  /\ req_params req = req_params req'
  /\ base_url (req_client req) = base_url (req_client req')
  /\ timeout (req_client req) = timeout (req_client req')
  /\ cert (req_client req) = cert (req_client req').

(** A value on which [(v or {}).get(k)] does not raise: a dict or a
    falsy value. *)
Definition dict_or_falsy (v : json) : bool := is_dict v || negb (truthy v).


(** The entry is an object with a truthy [id]. *)
Definition has_id (acct : json) : bool :=
  match acct with
  | JObj d => truthy (dict_get d "id")
  | _ => false
  end.

(** The [account] part of the result [r] is read from the entry
    [acct]. *)
Definition result_of_entry (acct : json) (r : AccountResult) : Prop :=
  py_get acct "id" = inr (out_id (account r))
  /\ py_get acct "name" = inr (out_name (account r))
  /\ institution_name acct = inr (out_institution (account r))
  /\ py_get acct "last_four" = inr (out_last_four (account r))
  /\ py_get acct "type" = inr (out_type (account r)).



(** [needle in hay] on strings. *)
Fixpoint contains (needle hay : string) : bool :=
  if String.prefix needle hay then true
  else match hay with
       | EmptyString => false
       | String _ hay' => contains needle hay'
       end.

(** The exception the handler raises on the answer to a request, if
    any: what [client.get], [raise_for_status] and [r.json()], always
    called in that order, make of it. *)
Definition answer_error (res : string + Response) : option exn :=
  match res with
  | inl msg => Some (TransportError msg)
  | inr r =>
      if is_success r then
        match json_body r with
        | inl msg => Some (JSONDecodeError msg)
        | inr _ => None
        end
      else Some (HTTPStatusError r)
  end.

(** The requests the loop over the entries may leave in a trace, for
    the client [c] and the count [max_count]: per account with a
    truthy [id], a balances request without params and, once that was
    answered well, a transactions request with [{"count": max_count}];
    nothing after an answer that raises. *)
Inductive account_calls (c : Client) (max_count : json) : list event -> Prop :=
| calls_none : account_calls c max_count []
| calls_balances_raised (i : json) (res : string + Response) :
    truthy i = true ->
    answer_error res <> None ->
    account_calls c max_count [EvGet (mkRequest c (Balances i) None) res]
| calls_both (i : json) (rb : Response) (res : string + Response) (rest : list event) :
    truthy i = true ->
    answer_error (inr rb) = None ->
    (answer_error res <> None -> rest = []) ->
    account_calls c max_count rest ->
    account_calls c max_count
      (EvGet (mkRequest c (Balances i) None) (inr rb)
       :: EvGet (mkRequest c (Transactions i) (Some [("count", max_count)])) res
       :: rest).

(** The trace of a run that got a client: opened, the accounts request
    without params, the calls of the loop, closed. *)
Definition handler_trace (c : Client) (max_count : json) (evs : list event) : Prop :=
  exists res rest,
    evs = EvOpen c :: EvGet (mkRequest c Accounts None) res :: rest ++ [EvClose c]
    /\ account_calls c max_count rest
    /\ (answer_error res <> None -> rest = []).

(** Whenever an answer in the trace raises, that exception is the
    result of the run. *)
Definition answers_raise {World A} (r : Run World A) : Prop :=
  forall req res e,
    In (EvGet req res) (events r) -> answer_error res = Some e -> result r = inl e.

(** The event is a request sent through the client [c]. *)
Definition sent_through (c : Client) (ev : event) : Prop :=
  exists path params res, ev = EvGet (mkRequest c path params) res.


(** Where an exception raised inside the [with] block comes from: an
    answer in the trace, a [get] on a value that is not a dict, or the
    handler's own 502. *)
Definition raised_from (evs : list event) (e : exn) : Prop :=
  match e with
  | HTTPStatusError r =>
      exists req, In (EvGet req (inr r)) evs /\ is_success r = false
  | TransportError msg => exists req, In (EvGet req (inl msg)) evs
  | JSONDecodeError msg =>
      exists req r, In (EvGet req (inr r)) evs
                    /\ is_success r = true /\ json_body r = inl msg
  | AttributeError msg =>
      exists v, is_dict v = false
                /\ msg = "'" ++ type_name v ++ "' object has no attribute 'get'"
  | HTTPException s d => s = 502 /\ d = "Unexpected accounts payload"
  | RuntimeError _ => False
  | ClientInitError _ => False
  end.

(** Where the status [s] and the detail [d] of a failed request come
    from, for the access token [token] and the trace [evs]: the fixed
    text of the token check; the fixed text of the configuration
    error; the message of the constructor's exception; an answer
    outside 2xx, with its status and its body text after the fixed
    prefix; the message of a transport failure or of a decoding error
    in the trace; the handler's own 502 as [str] prints it; or the
    message of a [get] on a value that is not a dict. *)
Definition error_text_source (new_client : Client -> option string) (token : json)
    (evs : list event) (s : Z) (d : string) : Prop :=
  (s = 400 /\ d = "Missing 'accessToken' in request body")
  \/ (s = 500
      /\ d = "TELLER_CERT_PATH and TELLER_KEY_PATH are required in development/production.")
  \/ (s = 500
      /\ exists crt,
          new_client (mkClient TELLER_API_BASE (token, "") timeout_30 crt) = Some d)
  \/ (exists req r,
         In (EvGet req (inr r)) evs /\ is_success r = false
         /\ s = status_code r
         /\ d = "Teller API error [" ++ str_int (status_code r) ++ "]: " ++ text r)
  \/ (s = 500 /\ exists req, In (EvGet req (inl d)) evs)
  \/ (s = 500
      /\ exists req r, In (EvGet req (inr r)) evs
                       /\ is_success r = true /\ json_body r = inl d)
  \/ (s = 500 /\ d = "502: Unexpected accounts payload")
  \/ (s = 500
      /\ exists v, is_dict v = false
                   /\ d = "'" ++ type_name v ++ "' object has no attribute 'get'").

(** ** Loading the configuration

    [str.lower] and [str.strip] as they act on ASCII text; the
    statements about them are about environment values in ASCII. *)

Definition is_upper (c : Ascii.ascii) : bool :=
  (65 <=? Ascii.nat_of_ascii c)%nat && (Ascii.nat_of_ascii c <=? 90)%nat.

Definition lower_char (c : Ascii.ascii) : Ascii.ascii :=
  if is_upper c then Ascii.ascii_of_nat (Ascii.nat_of_ascii c + 32) else c.

(** [s.lower()] *)
Fixpoint str_lower (s : string) : string :=
  match s with
  | EmptyString => EmptyString
  | String c s' => String (lower_char c) (str_lower s')
  end.

(** [c.isspace()]: tab to carriage return, the four separators and
    the space. *)
Definition is_space (c : Ascii.ascii) : bool :=
  let n := Ascii.nat_of_ascii c in
  ((9 <=? n)%nat && (n <=? 13)%nat) || ((28 <=? n)%nat && (n <=? 32)%nat).

Fixpoint lstrip (s : string) : string :=
  match s with
  | EmptyString => EmptyString
  | String c s' => if is_space c then lstrip s' else s
  end.

Fixpoint rstrip (s : string) : string :=
  match s with
  | EmptyString => EmptyString
  | String c s' =>
      match rstrip s' with
      | EmptyString => if is_space c then EmptyString else String c EmptyString
      | r => String c r
      end
  end.

(** [s.strip()] *)
Definition str_strip (s : string) : string := rstrip (lstrip s).

(** Every character of the string is white space. *)
Fixpoint all_space (s : string) : bool :=
  match s with
  | EmptyString => true
  | String c s' => is_space c && all_space s'
  end.

(** The three module globals, from the environment ([None]: unset):
    [TELLER_ENV = (os.getenv("TELLER_ENV") or "sandbox").lower().strip()]
    and the two paths as [os.getenv] gives them. *)
Definition load_config (teller_env cert_path key_path : option string) : Config :=
  mkConfig
    (str_strip (str_lower (if truthy_opt teller_env
                           then match teller_env with Some s => s | None => "sandbox" end
                           else "sandbox")))
    cert_path key_path.

(** ** Sample upstreams

    The world counts the requests received.  [upstream] answers by the
    kind of path alone; [echo_send] rejects every request and quotes the
    user name of the credentials in its body. *)

Definition counting_send (answer : Path -> string + Response)
  : nat -> Request -> nat * (string + Response) :=
  fun n req => (S n, answer (req_path req)).

Definition upstream (accts bal txs : string + Response) (p : Path)
  : string + Response :=
  match p with
  | Accounts => accts
  | Balances _ => bal
  | Transactions _ => txs
  end.

Definition ok_json (body : string) (v : json) : string + Response :=
  inr (mkResponse 200 body (inr v)).

Definition checking : json :=
  JObj [("id", JStr "a1"); ("name", JStr "Checking");
        ("institution", JObj [("name", JStr "Chase")]);
        ("last_four", JStr "1234"); ("type", JStr "depository")].

Definition no_id : json := JObj [("name", JStr "Savings")].

Definition two_entries : string + Response :=
  ok_json "[{...a1...}, {...}]" (JList [checking; no_id]).

Definition a_balance : string + Response :=
  ok_json "{...}" (JObj [("available", JStr "10.00"); ("ledger", JStr "12.50")]).

Definition some_transactions : string + Response :=
  ok_json "[{...}]" (JList [JObj [("id", JStr "t1"); ("amount", JStr "-3.20")]]).

Definition not_found : string + Response :=
  inr (mkResponse 404 "account not found"
         (inl "Expecting value: line 1 column 1 (char 0)")).

Definition echo_send : nat -> Request -> nat * (string + Response) :=
  fun n req =>
    (S n,
     inr (mkResponse 401
            match fst (auth (req_client req)) with
            | JStr token => "bad credentials: " ++ token
            | _ => "bad credentials"
            end
            (inl "Expecting value: line 1 column 1 (char 0)"))).

(** A constructor that returns the client for every argument. *)
Definition accepts : Client -> option string := fun _ => None.

Definition sandbox : Config := mkConfig "sandbox" None None.

Definition production_without_cert : Config := mkConfig "production" None None.

Definition sandbox_client (token : string) : Client :=
  mkClient TELLER_API_BASE (JStr token, "") timeout_30 None.

(** ** Basic facts *)

Lemma dict_get_unbound (d : dict) (k : string) :
  ~ has_key d k -> dict_get d k = JNull.
Proof.
  unfold has_key. induction d as [|[k' v] d IH]; simpl; intros H.
  - reflexivity.
  - destruct (String.eqb_spec k k') as [->|_].
    + exfalso. apply H. now left.
    + apply IH. intros Hin. apply H. now right.
Qed.

Lemma payload_or_empty (payload : dict) :
  match payload with [] => [] | _ => payload end = payload.
Proof. now destruct payload. Qed.

Lemma py_get_error (v : json) (k : string) (e : exn) :
  py_get v k = inl e -> exists m, e = AttributeError m.
Proof. destruct v; cbn; intros H; inversion H; eauto. Qed.

Lemma institution_name_error (acct : json) (e : exn) :
  institution_name acct = inl e -> exists m, e = AttributeError m.
Proof.
  unfold institution_name. destruct (py_get acct "institution") eqn:E.
  - intros H. inversion H. subst. eauto using py_get_error.
  - eauto using py_get_error.
Qed.

Lemma py_get_dict_or_falsy (v : json) (k : string) :
  dict_or_falsy v = true -> exists x, py_get (py_or v (JObj [])) k = inr x.
Proof.
  unfold dict_or_falsy, py_or. destruct (truthy v) eqn:Et; cbn.
  - rewrite orb_false_r. destruct v; cbn; try discriminate. eauto.
  - eauto.
Qed.

Lemma make_client_falsy_paths (new_client : Client -> option string)
    (cfg : Config) (token : json) :
  requires_mtls cfg = true ->
  truthy_opt (TELLER_CERT_PATH cfg) = false \/ truthy_opt (TELLER_KEY_PATH cfg) = false ->
  _make_client new_client cfg token =
    inl (RuntimeError
           "TELLER_CERT_PATH and TELLER_KEY_PATH are required in development/production.").
Proof.
  intros Hm H. unfold _make_client. rewrite Hm.
  destruct H as [-> | ->]; simpl; [reflexivity|].
  now rewrite orb_true_r.
Qed.

(** The factory raises its [RuntimeError] whatever the token is, or
    hands the token, with a certificate that does not depend on it, to
    the constructor. *)
Lemma make_client_cases (new_client : Client -> option string)
    (cfg : Config) (token : json) :
  _make_client new_client cfg token =
    inl (RuntimeError
           "TELLER_CERT_PATH and TELLER_KEY_PATH are required in development/production.")
  \/ exists crt,
      forall token',
        _make_client new_client cfg token' =
          httpx_Client new_client (mkClient TELLER_API_BASE (token', "") timeout_30 crt).
Proof.
  unfold _make_client. destruct (requires_mtls cfg).
  - destruct (negb (truthy_opt (TELLER_CERT_PATH cfg))
              || negb (truthy_opt (TELLER_KEY_PATH cfg))); eauto.
  - eauto.
Qed.

Lemma httpx_Client_built (new_client : Client -> option string) (c0 c : Client) :
  httpx_Client new_client c0 = inr c -> c = c0 /\ new_client c0 = None.
Proof.
  unfold httpx_Client. destruct (new_client c0); intros H; inversion H. now split.
Qed.

Lemma httpx_Client_raised (new_client : Client -> option string) (c0 : Client) (e : exn) :
  httpx_Client new_client c0 = inl e ->
  exists msg, new_client c0 = Some msg /\ e = ClientInitError msg.
Proof.
  unfold httpx_Client. destruct (new_client c0); intros H; inversion H. eauto.
Qed.

(** A client the factory returns is built from the token and was
    accepted by the constructor. *)
Lemma make_client_built (new_client : Client -> option string)
    (cfg : Config) (token : json) (c : Client) :
  _make_client new_client cfg token = inr c ->
  new_client c = None
  /\ exists crt, c = mkClient TELLER_API_BASE (token, "") timeout_30 crt.
Proof.
  intros H.
  destruct (make_client_cases new_client cfg token) as [Hr | [crt Hc]]; [congruence |].
  rewrite Hc in H. apply httpx_Client_built in H. destruct H as [-> Hn]. eauto.
Qed.

(** What the factory raises: its own [RuntimeError], or what the
    constructor raised on the client arguments built from the token. *)
Lemma make_client_raised (new_client : Client -> option string)
    (cfg : Config) (token : json) (e : exn) :
  _make_client new_client cfg token = inl e ->
  e = RuntimeError
        "TELLER_CERT_PATH and TELLER_KEY_PATH are required in development/production."
  \/ exists crt msg,
      new_client (mkClient TELLER_API_BASE (token, "") timeout_30 crt) = Some msg
      /\ e = ClientInitError msg.
Proof.
  intros H.
  destruct (make_client_cases new_client cfg token) as [Hr | [crt Hc]].
  - left. congruence.
  - right. rewrite Hc in H. apply httpx_Client_raised in H.
    destruct H as [msg [Hn He]]. eauto.
Qed.

(** ** Reasoning about runs *)

Section Runs.

Context {World : Type} (new_client : Client -> option string)
  (send : World -> Request -> World * (string + Response)).

Lemma bind_ret {A B} (a : A) (k : A -> M World B) w :
  bind (ret a) k w = k a w.
Proof. unfold bind, ret. cbn. now destruct (k a w). Qed.

Lemma bind_raise {A B} (e : exn) (k : A -> M World B) w :
  bind (raise e) k w = mkRun w [] (inl e).
Proof. reflexivity. Qed.

Lemma bind_lift_inr {A B} (a : A) (k : A -> M World B) w :
  bind (lift (inr a)) k w = k a w.
Proof. apply bind_ret. Qed.

Lemma bind_lift_inl {A B} (e : exn) (k : A -> M World B) w :
  bind (lift (inl e)) k w = mkRun w [] (inl e).
Proof. reflexivity. Qed.

(** A request followed by [raise_for_status], as the handler always
    does it: the three ways it can go. *)
Lemma get_checked_run {B} client path params (k : Response -> M World B) w :
  bind (client_get send client path params)
       (fun r => bind (raise_for_status r) (fun _ => k r)) w =
  let req := mkRequest client path params in
  match snd (send w req) with
  | inl msg =>
      mkRun (fst (send w req)) [EvGet req (inl msg)] (inl (TransportError msg))
  | inr r =>
      if is_success r then
        let r' := k r (fst (send w req)) in
        mkRun (world_after r') (EvGet req (inr r) :: events r') (result r')
      else
        mkRun (fst (send w req)) [EvGet req (inr r)] (inl (HTTPStatusError r))
  end.
Proof.
  unfold bind at 1. unfold client_get.
  destruct (send w (mkRequest client path params)) as [w' [msg | r]]; cbn.
  - reflexivity.
  - unfold bind, raise_for_status. destruct (is_success r); cbn.
    + reflexivity.
    + reflexivity.
Qed.

Lemma bind_response_json {B} (r : Response) (k : json -> M World B) w :
  bind (response_json r) k w =
  match json_body r with
  | inl msg => mkRun w [] (inl (JSONDecodeError msg))
  | inr v => k v w
  end.
Proof.
  unfold response_json. destruct (json_body r).
  - reflexivity.
  - apply bind_ret.
Qed.

(** The runs of [fetch_all]: stopped at the token check, stopped at
    the factory, or the [with] body between opening and closing the
    client. *)
Lemma fetch_all_run cfg payload w :
  fetch_all new_client send cfg payload w =
  if truthy (dict_get payload "accessToken") then
    match _make_client new_client cfg (dict_get payload "accessToken") with
    | inl e => mkRun w [] (inl (except_clauses e))
    | inr c =>
        let b := fetch_all_with_body send
                   (py_or (dict_get payload "count") (JInt 50)) c w in
        mkRun (world_after b) (EvOpen c :: events b ++ [EvClose c])
          match result b with
          | inl e => inl (except_clauses e)
          | inr rs => inr (mkFetchResponse rs)
          end
    end
  else mkRun w [] (inl (HTTPException 400 "Missing 'accessToken' in request body")).
Proof.
  unfold fetch_all. rewrite !payload_or_empty.
  destruct (truthy (dict_get payload "accessToken")); cbn [negb]; [| reflexivity].
  unfold try_except, bind, with_client.
  destruct (_make_client new_client cfg (dict_get payload "accessToken")) as [e | c].
  - reflexivity.
  - cbv zeta. cbn [world_after events result].
    destruct (result (fetch_all_with_body send _ c w)); cbn [world_after events result].
    + reflexivity.
    + unfold ret. cbn [world_after events result]. now rewrite app_nil_r.
Qed.

(** Case analysis of one run of the loop body: each goal ends with
    the run written out. *)
Ltac run_step :=
  match goal with
  | |- context [bind (lift (py_get (JObj ?d) ?k)) _ _] =>
      change (py_get (JObj d) k) with (@inr exn json (dict_get d k));
      rewrite bind_lift_inr
  | |- context [bind (lift ?x) _ _] =>
      let E := fresh "Eget" in
      destruct x eqn:E; [rewrite bind_lift_inl | rewrite bind_lift_inr]
  | |- context [bind (client_get send _ _ _) _ _] =>
      rewrite get_checked_run; cbv zeta;
      match goal with
      | |- context [send ?w ?req] =>
          let E := fresh "Esend" in
          destruct (send w req) as [? [? | ?]] eqn:E; cbn [fst snd]
      end
  | |- context [if is_success ?r then _ else _] =>
      let E := fresh "Esucc" in destruct (is_success r) eqn:E
  | |- context [bind (response_json _) _ _] =>
      rewrite bind_response_json;
      match goal with
      | |- context [json_body ?r] =>
          let E := fresh "Ejson" in destruct (json_body r) eqn:E
      end
  | |- context [if negb (truthy ?v) then _ else _] =>
      let E := fresh "Eid" in destruct (truthy v) eqn:E; cbn [negb]
  end.

Ltac account_cases :=
  unfold fetch_account; repeat run_step; unfold ret;
  cbn [world_after events result].

Ltac attribute_errors :=
  repeat match goal with
         | H : py_get _ _ = inl _ |- _ =>
             destruct (py_get_error _ _ _ H) as [? ->]; clear H
         | H : institution_name _ = inl _ |- _ =>
             destruct (institution_name_error _ _ H) as [? ->]; clear H
         end.

Ltac in_cases H :=
  cbn [In] in H;
  repeat match type of H with
         | _ \/ _ => destruct H as [H | H]
         | False => contradiction
         end.

(** *** Status errors and failed requests *)

Lemma fetch_account_status client max_count results acct w :
  status_faithful (fetch_account send client max_count results acct w).
Proof.
  account_cases; attribute_errors.
  all: unfold status_faithful, failed_get; cbn [events result]; intros resp; split.
  all: try (intros [ev [Hin [[req ->] Hs]]]; in_cases Hin;
            inversion Hin; subst; congruence).
  all: try discriminate.
  all: intros H; inversion H; subst; clear H.
  all: eexists; split; [cbn [In]; eauto | split; [eexists; reflexivity | assumption]].
Qed.

Lemma bind_status_faithful {A B} (m : M World A) (k : A -> M World B) w :
  status_faithful (m w) ->
  (forall a w', status_faithful (k a w')) ->
  status_faithful (bind m k w).
Proof.
  intros Hm Hk resp. unfold bind. cbv zeta.
  destruct (result (m w)) as [e | a] eqn:Er; cbn [events result].
  - specialize (Hm resp). rewrite Er in Hm. split.
    + intros H. apply Hm in H. inversion H. reflexivity.
    + intros H. inversion H. subst e. now apply Hm.
  - specialize (Hk a (world_after (m w)) resp). rewrite <- Hk. split.
    + intros [ev [Hin Hf]]. apply in_app_or in Hin. destruct Hin as [Hin | Hin].
      * assert (Hbad : result (m w) = inl (HTTPStatusError resp))
          by (apply Hm; eauto).
        congruence.
      * eauto.
    + intros [ev [Hin Hf]]. exists ev. split; [apply in_or_app; now right | assumption].
Qed.

Lemma for_each_status_faithful {A B} (body : B -> A -> M World B) :
  (forall acc x w, status_faithful (body acc x w)) ->
  forall l acc w, status_faithful (for_each body acc l w).
Proof.
  intros Hbody l. induction l as [| x l IH]; intros acc w.
  - intros resp. cbn. split; [intros [ev [[] _]] | discriminate].
  - cbn [for_each]. apply bind_status_faithful; [apply Hbody | intros; apply IH].
Qed.

(** A successful request in front of a run changes nothing. *)
Lemma status_faithful_after_ok {A} (r' : Run World A) (w' : World) req r :
  is_success r = true ->
  status_faithful r' ->
  status_faithful (mkRun w' (EvGet req (inr r) :: events r') (result r')).
Proof.
  intros Hs H resp. cbn [events result]. rewrite <- (H resp). split.
  - intros [ev [[<- | Hin] Hf]].
    + destruct Hf as [[req' Heq] Hn]. inversion Heq. subst. congruence.
    + eauto.
  - intros [ev [Hin Hf]]. exists ev. split; [now right | assumption].
Qed.

Lemma with_body_status max_count client w :
  status_faithful (fetch_all_with_body send max_count client w).
Proof.
  unfold fetch_all_with_body. repeat run_step.
  all: try match goal with
           | |- context [match ?j with JList _ => _ | _ => _ end] =>
               destruct j; try rewrite bind_raise
           end.
  all: try (apply status_faithful_after_ok; [assumption |];
            apply for_each_status_faithful; intros; apply fetch_account_status).
  all: intros resp; unfold failed_get; cbn [events result]; split.
  all: try (intros [ev [Hin [[req ->] Hs]]]; in_cases Hin;
            inversion Hin; subst; congruence).
  all: try discriminate.
  all: intros H; inversion H; subst; clear H.
  all: eexists; split; [cbn [In]; eauto | split; [eexists; reflexivity | assumption]].
Qed.

(** *** Trace properties *)

Lemma bind_trace {A B} (P : event -> Prop) (m : M World A) (k : A -> M World B) w :
  Forall P (events (m w)) ->
  (forall a w', Forall P (events (k a w'))) ->
  Forall P (events (bind m k w)).
Proof.
  intros Hm Hk. unfold bind. cbv zeta.
  destruct (result (m w)); cbn [events]; [assumption |].
  apply Forall_app. split; [assumption | apply Hk].
Qed.

Lemma for_each_trace {A B} (P : event -> Prop) (body : B -> A -> M World B) :
  (forall acc x w, Forall P (events (body acc x w))) ->
  forall l acc w, Forall P (events (for_each body acc l w)).
Proof.
  intros Hbody l. induction l as [| x l IH]; intros acc w.
  - constructor.
  - cbn [for_each]. apply bind_trace; [apply Hbody | intros; apply IH].
Qed.

Lemma fetch_account_count client max_count results acct w :
  Forall (carries_count max_count)
    (events (fetch_account send client max_count results acct w)).
Proof. account_cases; repeat constructor. Qed.

Lemma with_body_count max_count client w :
  Forall (carries_count max_count)
    (events (fetch_all_with_body send max_count client w)).
Proof.
  unfold fetch_all_with_body. repeat run_step.
  all: try match goal with
           | |- context [match ?j with JList _ => _ | _ => _ end] =>
               destruct j; try rewrite bind_raise
           end.
  all: cbn [events]; repeat (constructor; [exact I |]); try constructor.
  apply for_each_trace. intros. apply fetch_account_count.
Qed.

Lemma fetch_all_count cfg payload w :
  Forall (carries_count (py_or (dict_get payload "count") (JInt 50)))
    (events (fetch_all new_client send cfg payload w)).
Proof.
  rewrite fetch_all_run.
  destruct (truthy (dict_get payload "accessToken")); [| constructor].
  destruct (_make_client new_client cfg (dict_get payload "accessToken")); [constructor |].
  cbv zeta. cbn [events]. constructor; [exact I |].
  apply Forall_app. split; [apply with_body_count | repeat constructor].
Qed.

(** *** The status of a failed run *)

Lemma fetch_all_error_status cfg payload w e :
  result (fetch_all new_client send cfg payload w) = inl e ->
  exists s d,
    e = HTTPException s d
    /\ (s = 400 /\ truthy (dict_get payload "accessToken") = false
        \/ s = 500
        \/ exists ev resp,
            In ev (events (fetch_all new_client send cfg payload w))
            /\ failed_get ev resp /\ s = status_code resp).
Proof.
  rewrite fetch_all_run.
  destruct (truthy (dict_get payload "accessToken")).
  2: { cbn. intros H. inversion H. eauto 6. }
  destruct (_make_client new_client cfg (dict_get payload "accessToken")) as [e' | c] eqn:Emk.
  - destruct (make_client_raised new_client cfg _ _ Emk) as [-> | [crt [msg [_ ->]]]];
      cbn; intros H; inversion H; eauto 6.
  - cbv zeta. cbn [events result].
    pose proof (with_body_status (py_or (dict_get payload "count") (JInt 50)) c w) as Hst.
    destruct (result (fetch_all_with_body send _ c w)) as [e' | rs] eqn:Er;
      [| discriminate].
    intros H. inversion H. subst e. clear H.
    destruct e'; cbn; eauto 6.
    destruct (proj2 (Hst response) Er) as [ev [Hin Hf]].
    do 2 eexists. split; [reflexivity |]. right. right.
    exists ev, response. split; [| split; [assumption | reflexivity]].
    right. apply in_or_app. now left.
Qed.

(** *** Entries that are not objects *)

Lemma fetch_account_non_dict client max_count results acct w :
  is_dict acct = false ->
  fetch_account send client max_count results acct w =
    mkRun w []
      (inl (AttributeError ("'" ++ type_name acct ++ "' object has no attribute 'get'"))).
Proof. destruct acct; try discriminate; reflexivity. Qed.

Lemma for_each_non_dict client max_count entries :
  (exists x, In x entries /\ is_dict x = false) ->
  forall acc w,
  exists e, result (for_each (fetch_account send client max_count) acc entries w) = inl e.
Proof.
  induction entries as [| x l IH]; intros [y [Hin Hy]] acc w.
  - destruct Hin.
  - cbn [for_each]. unfold bind. cbv zeta.
    destruct (result (fetch_account send client max_count acc x w)) as [e | acc'] eqn:Er;
      cbn [result]; [eauto |].
    destruct Hin as [-> | Hin].
    + rewrite (fetch_account_non_dict _ _ _ _ _ Hy) in Er. discriminate.
    + apply IH. eauto.
Qed.

(** *** Runs in which every call went well *)





(** *** The institution field of an appended result *)

Lemma fetch_account_institution client max_count results acct w rs :
  result (fetch_account send client max_count results acct w) = inr rs ->
  rs = results
  \/ exists r, rs = (results ++ [r])%list
               /\ institution_name acct = inr (out_institution (account r)).
Proof.
  account_cases; intros H; inversion H; subst; eauto.
Qed.

(** *** A transactions body that is not a list *)

Lemma fetch_account_non_list_transactions client max_count results d w rb vb rt vt :
  dict_or_falsy (dict_get d "institution") = true ->
  truthy (dict_get d "id") = true ->
  snd (send w (mkRequest client (Balances (dict_get d "id")) None)) = inr rb ->
  is_success rb = true ->
  json_body rb = inr vb ->
  dict_or_falsy vb = true ->
  snd (send (fst (send w (mkRequest client (Balances (dict_get d "id")) None)))
         (mkRequest client (Transactions (dict_get d "id"))
            (Some [("count", max_count)]))) = inr rt ->
  is_success rt = true ->
  json_body rt = inr vt ->
  is_list vt = false ->
  exists r,
    result (fetch_account send client max_count results (JObj d) w)
      = inr (results ++ [r])%list
    /\ transactions r = []
    /\ result_of_entry (JObj d) r.
Proof.
  intros Hinst Hid Hb Hbs Hbj Hbv Ht Hts Htj Htl.
  assert (Hin : exists x, institution_name (JObj d) = inr x).
  { unfold institution_name. cbn [py_get]. now apply py_get_dict_or_falsy. }
  destruct Hin as [x Hx].
  destruct (py_get_dict_or_falsy vb "available" Hbv) as [av Hav].
  destruct (py_get_dict_or_falsy vb "ledger" Hbv) as [le Hle].
  unfold fetch_account.
  change (py_get (JObj d) "id") with (@inr exn json (dict_get d "id")).
  rewrite bind_lift_inr, Hid. cbn [negb].
  rewrite get_checked_run. cbv zeta. rewrite Hb, Hbs. cbn [result].
  rewrite bind_response_json, Hbj.
  rewrite get_checked_run. cbv zeta. rewrite Ht, Hts. cbn [result].
  rewrite bind_response_json, Htj.
  change (py_get (JObj d) "name") with (@inr exn json (dict_get d "name")).
  rewrite bind_lift_inr, Hx, bind_lift_inr.
  change (py_get (JObj d) "last_four") with (@inr exn json (dict_get d "last_four")).
  rewrite bind_lift_inr.
  change (py_get (JObj d) "type") with (@inr exn json (dict_get d "type")).
  rewrite bind_lift_inr, Hav, bind_lift_inr, Hle, bind_lift_inr.
  eexists. split; [reflexivity |]. split.
  - destruct vt; try discriminate; reflexivity.
  - unfold result_of_entry. cbn. now repeat split.
Qed.

(** *** The requests of the loop *)

Ltac answer_hyps :=
  unfold answer_error;
  repeat match goal with
         | H : is_success _ = _ |- _ => rewrite H
         | H : json_body _ = _ |- _ => rewrite H
         end.

Lemma fetch_account_calls client max_count results acct w rest :
  account_calls client max_count rest ->
  rest = [] \/ (exists rs, result (fetch_account send client max_count results acct w) = inr rs) ->
  account_calls client max_count
    (events (fetch_account send client max_count results acct w) ++ rest).
Proof.
  account_cases; intros Hrest Hor; cbn [app]; try assumption.
  all: try (assert (rest = []) as -> by (destruct Hor as [-> | [rs Hrs]];
                                          [reflexivity | discriminate])).
  all: first
         [ apply calls_balances_raised; [assumption | answer_hyps; discriminate]
         | apply calls_both;
           [ assumption
           | answer_hyps; reflexivity
           | first [ reflexivity | answer_hyps; intros Hne; now exfalso ]
           | first [ apply calls_none | assumption ] ] ].
Qed.

Lemma for_each_calls client max_count entries :
  forall acc w,
    account_calls client max_count
      (events (for_each (fetch_account send client max_count) acc entries w)).
Proof.
  induction entries as [| x l IH]; intros acc w.
  - constructor.
  - cbn [for_each]. unfold bind. cbv zeta.
    destruct (result (fetch_account send client max_count acc x w)) as [e | acc'] eqn:Er;
      cbn [events].
    + rewrite <- (app_nil_r (events _)).
      apply fetch_account_calls; [constructor | now left].
    + apply fetch_account_calls; [apply IH | right; eauto].
Qed.

Lemma with_body_trace max_count client w :
  exists res rest,
    events (fetch_all_with_body send max_count client w)
    = EvGet (mkRequest client Accounts None) res :: rest
    /\ account_calls client max_count rest
    /\ (answer_error res <> None -> rest = []).
Proof.
  unfold fetch_all_with_body. repeat run_step.
  all: try match goal with
           | |- context [match ?j with JList _ => _ | _ => _ end] =>
               destruct j; try rewrite bind_raise
           end.
  all: cbn [events]; do 2 eexists; split; [reflexivity |].
  all: split; [first [apply calls_none | apply for_each_calls] |].
  all: first [ reflexivity | answer_hyps; intros Hne; now exfalso ].
Qed.

(** *** Answers that raise *)

Lemma fetch_account_answers client max_count results acct w :
  answers_raise (fetch_account send client max_count results acct w).
Proof.
  account_cases; intros req0 res0 e0 Hin He; cbn [events result] in *; in_cases Hin.
  all: inversion Hin; subst; revert He; answer_hyps; congruence.
Qed.

Lemma bind_answers {A B} (m : M World A) (k : A -> M World B) w :
  answers_raise (m w) ->
  (forall a w', answers_raise (k a w')) ->
  answers_raise (bind m k w).
Proof.
  intros Hm Hk req res e. unfold bind. cbv zeta.
  destruct (result (m w)) as [e' | a] eqn:Er; cbn [events result].
  - intros Hin He. specialize (Hm req res e Hin He). congruence.
  - intros Hin He. apply in_app_or in Hin. destruct Hin as [Hin | Hin].
    + specialize (Hm req res e Hin He). congruence.
    + exact (Hk a _ req res e Hin He).
Qed.

Lemma for_each_answers {A B} (body : B -> A -> M World B) :
  (forall acc x w, answers_raise (body acc x w)) ->
  forall l acc w, answers_raise (for_each body acc l w).
Proof.
  intros Hbody l. induction l as [| x l IH]; intros acc w.
  - intros req res e [].
  - cbn [for_each]. apply bind_answers; [apply Hbody | intros; apply IH].
Qed.

Lemma with_body_answers max_count client w :
  answers_raise (fetch_all_with_body send max_count client w).
Proof.
  pose proof (for_each_answers (fetch_account send client max_count)
                (fetch_account_answers client max_count)) as Hloop.
  unfold fetch_all_with_body. repeat run_step.
  all: try match goal with
           | |- context [match ?j with JList _ => _ | _ => _ end] =>
               destruct j; try rewrite bind_raise
           end.
  all: intros req0 res0 e0 Hin He; cbn [events result] in *.
  all: try (in_cases Hin; inversion Hin; subst; revert He; answer_hyps; congruence).
  destruct Hin as [Hin | Hin].
  - inversion Hin; subst. revert He. answer_hyps. congruence.
  - eapply Hloop; eassumption.
Qed.

(** *** Runs of the loop that return *)

Lemma fetch_account_success client max_count results acct w rs :
  result (fetch_account send client max_count results acct w) = inr rs ->
  exists d,
    acct = JObj d
    /\ (truthy (dict_get d "id") = false
        /\ rs = results
        /\ events (fetch_account send client max_count results acct w) = []
        /\ world_after (fetch_account send client max_count results acct w) = w
        \/ truthy (dict_get d "id") = true
           /\ exists rb rt vb vt r,
               events (fetch_account send client max_count results acct w)
               = [EvGet (mkRequest client (Balances (dict_get d "id")) None) (inr rb);
                  EvGet (mkRequest client (Transactions (dict_get d "id"))
                           (Some [("count", max_count)])) (inr rt)]
               /\ json_body rb = inr vb
               /\ json_body rt = inr vt
               /\ rs = (results ++ [r])%list
               /\ result_of_entry (JObj d) r
               /\ py_get (py_or vb (JObj [])) "available" = inr (out_available (balance r))
               /\ py_get (py_or vb (JObj [])) "ledger" = inr (out_ledger (balance r))
               /\ transactions r = transactions_or_empty vt).
Proof.
  destruct acct as [| | | | | | d]; try discriminate.
  account_cases; intros H; inversion H; subst; clear H.
  - exists d. split; [reflexivity |]. right. split; [assumption |].
    do 5 eexists. split; [reflexivity |].
    repeat split; cbn; try eassumption; reflexivity.
  - exists d. split; [reflexivity |]. left. repeat split. assumption.
Qed.

Lemma for_each_success client max_count entries :
  forall acc w rs,
    result (for_each (fetch_account send client max_count) acc entries w) = inr rs ->
    exists new,
      rs = (acc ++ new)%list
      /\ forallb is_dict entries = true
      /\ Forall2 result_of_entry (filter has_id entries) new
      /\ length (events (for_each (fetch_account send client max_count) acc entries w))
         = (2 * length new)%nat.
Proof.
  induction entries as [| x l IH]; intros acc w rs.
  - cbn. intros H. inversion H. exists []. rewrite app_nil_r.
    repeat split. constructor.
  - cbn [for_each]. unfold bind. cbv zeta.
    destruct (result (fetch_account send client max_count acc x w)) as [e | acc'] eqn:Er;
      cbn [events result]; [discriminate |].
    intros Hrest.
    destruct (IH _ _ _ Hrest) as [new [Hrs [Hd [Hall Hlen]]]].
    destruct (fetch_account_success _ _ _ _ _ _ Er)
      as [d [-> [[Hid [Hacc [Hev _]]] | [Hid [rb [rt [vb [vt [r H]]]]]]]]].
    + subst acc'. exists new. rewrite Hev. cbn [app forallb filter has_id is_dict andb].
      rewrite Hid. repeat split; assumption.
    + destruct H as [Hev [_ [_ [Hacc [Hentry _]]]]]. subst acc'.
      exists (r :: new). rewrite Hev, Hrs, <- app_assoc.
      cbn [app forallb filter has_id is_dict andb length]. rewrite Hid, Hlen.
      repeat split; [assumption | now constructor | ].
      rewrite Nat.mul_succ_r, Nat.add_comm. reflexivity.
Qed.

Lemma with_body_success max_count client w rs :
  result (fetch_all_with_body send max_count client w) = inr rs ->
  exists r entries rest,
    events (fetch_all_with_body send max_count client w)
    = EvGet (mkRequest client Accounts None) (inr r) :: rest
    /\ is_success r = true
    /\ json_body r = inr (JList entries)
    /\ forallb is_dict entries = true
    /\ Forall2 result_of_entry (filter has_id entries) rs
    /\ length rest = (2 * length rs)%nat.
Proof.
  unfold fetch_all_with_body. repeat run_step.
  all: try match goal with
           | |- context [match ?j with JList _ => _ | _ => _ end] =>
               destruct j; try rewrite bind_raise
           end.
  all: cbn [events result]; try discriminate.
  intros H. destruct (for_each_success _ _ _ _ _ _ H) as [new [Hrs [Hd [Hall Hlen]]]].
  cbn [app] in Hrs. subst rs.
  do 3 eexists. split; [reflexivity |]. repeat split; eassumption.
Qed.

(** *** The loop body after two good answers *)

Lemma fetch_account_answered client max_count results d w rb vb rt vt :
  truthy (dict_get d "id") = true ->
  snd (send w (mkRequest client (Balances (dict_get d "id")) None)) = inr rb ->
  is_success rb = true ->
  json_body rb = inr vb ->
  snd (send (fst (send w (mkRequest client (Balances (dict_get d "id")) None)))
         (mkRequest client (Transactions (dict_get d "id"))
            (Some [("count", max_count)]))) = inr rt ->
  is_success rt = true ->
  json_body rt = inr vt ->
  result (fetch_account send client max_count results (JObj d) w) =
    match institution_name (JObj d) with
    | inl e => inl e
    | inr inst =>
        match py_get (py_or vb (JObj [])) "available" with
        | inl e => inl e
        | inr av =>
            match py_get (py_or vb (JObj [])) "ledger" with
            | inl e => inl e
            | inr le =>
                inr (results ++
                       [mkAccountResult
                          (mkAccountOut (dict_get d "id") (dict_get d "name") inst
                             (dict_get d "last_four") (dict_get d "type"))
                          (mkBalanceOut av le)
                          (transactions_or_empty vt)])%list
            end
        end
    end.
Proof.
  intros Hid Hb Hbs Hbj Ht Hts Htj.
  unfold fetch_account.
  change (py_get (JObj d) "id") with (@inr exn json (dict_get d "id")).
  rewrite bind_lift_inr, Hid. cbn [negb].
  rewrite get_checked_run. cbv zeta. rewrite Hb, Hbs. cbn [result].
  rewrite bind_response_json, Hbj.
  rewrite get_checked_run. cbv zeta. rewrite Ht, Hts. cbn [result].
  rewrite bind_response_json, Htj.
  change (py_get (JObj d) "name") with (@inr exn json (dict_get d "name")).
  rewrite bind_lift_inr.
  destruct (institution_name (JObj d)) as [e | inst];
    [rewrite bind_lift_inl; reflexivity | rewrite bind_lift_inr].
  change (py_get (JObj d) "last_four") with (@inr exn json (dict_get d "last_four")).
  rewrite bind_lift_inr.
  change (py_get (JObj d) "type") with (@inr exn json (dict_get d "type")).
  rewrite bind_lift_inr.
  destruct (py_get (py_or vb (JObj [])) "available") as [e | av];
    [rewrite bind_lift_inl; reflexivity | rewrite bind_lift_inr].
  destruct (py_get (py_or vb (JObj [])) "ledger") as [e | le];
    [rewrite bind_lift_inl; reflexivity | rewrite bind_lift_inr].
  reflexivity.
Qed.

(** *** Where exceptions come from *)

Lemma raised_from_app (pre evs : list event) (e : exn) :
  raised_from evs e -> raised_from (pre ++ evs) e.
Proof.
  destruct e; cbn; try tauto.
  - intros [req [Hin Hs]]. exists req. split; [apply in_or_app; now right | assumption].
  - intros [req [r [Hin H]]]. exists req, r. split; [apply in_or_app; now right | assumption].
  - intros [req Hin]. exists req. apply in_or_app. now right.
Qed.

Lemma py_get_raised (v : json) (k : string) (e : exn) :
  py_get v k = inl e -> raised_from [] e.
Proof.
  intros H. destruct (is_dict v) eqn:Hd.
  - destruct v; discriminate.
  - destruct v; cbn in H; inversion H; cbn;
      match goal with Hv : is_dict ?x = false |- _ => exists x end;
      (split; [exact Hd | reflexivity]).
Qed.

Lemma institution_name_raised (acct : json) (e : exn) :
  institution_name acct = inl e -> raised_from [] e.
Proof.
  unfold institution_name. destruct (py_get acct "institution") eqn:E.
  - intros H. inversion H. subst. eauto using py_get_raised.
  - eauto using py_get_raised.
Qed.

Ltac raised_here :=
  match goal with
  | H : py_get _ _ = inl ?e |- raised_from ?evs ?e =>
      rewrite <- (app_nil_r evs); apply raised_from_app;
      exact (py_get_raised _ _ _ H)
  | H : institution_name _ = inl ?e |- raised_from ?evs ?e =>
      rewrite <- (app_nil_r evs); apply raised_from_app;
      exact (institution_name_raised _ _ H)
  | |- raised_from _ (TransportError _) => cbn; eexists; cbn [In]; eauto
  | |- raised_from _ (HTTPStatusError _) =>
      cbn; eexists; split; [cbn [In]; eauto | assumption]
  | |- raised_from _ (JSONDecodeError _) =>
      cbn; do 2 eexists; split; [cbn [In]; eauto | split; eassumption]
  end.

Lemma fetch_account_raised client max_count results acct w e :
  result (fetch_account send client max_count results acct w) = inl e ->
  raised_from (events (fetch_account send client max_count results acct w)) e.
Proof.
  account_cases; intros H; inversion H; subst; clear H; raised_here.
Qed.

Lemma for_each_raised client max_count entries :
  forall acc w e,
    result (for_each (fetch_account send client max_count) acc entries w) = inl e ->
    raised_from (events (for_each (fetch_account send client max_count) acc entries w)) e.
Proof.
  induction entries as [| x l IH]; intros acc w e.
  - discriminate.
  - cbn [for_each]. unfold bind. cbv zeta.
    destruct (result (fetch_account send client max_count acc x w)) as [e' | acc'] eqn:Er;
      cbn [events result].
    + intros H. inversion H. subst e'. now apply fetch_account_raised.
    + intros H. apply raised_from_app. now apply IH.
Qed.

Lemma with_body_raised max_count client w e :
  result (fetch_all_with_body send max_count client w) = inl e ->
  raised_from (events (fetch_all_with_body send max_count client w)) e.
Proof.
  unfold fetch_all_with_body. repeat run_step.
  all: try match goal with
           | |- context [match ?j with JList _ => _ | _ => _ end] =>
               destruct j; try rewrite bind_raise
           end.
  all: cbn [events result]; intros H.
  all: try (inversion H; subst; clear H; first [raised_here | now split]).
  apply (raised_from_app [_]). now apply for_each_raised.
Qed.

(** *** The calls of the loop against the listing *)




(** *** The [with] body after a good listing *)


(** *** Requests that differ in the credentials only *)

Lemma bind_outcome {A B} (m1 m2 : M World A) (k1 k2 : A -> M World B) w :
  outcome (m1 w) = outcome (m2 w) ->
  (forall a w', outcome (k1 a w') = outcome (k2 a w')) ->
  outcome (bind m1 k1 w) = outcome (bind m2 k2 w).
Proof.
  unfold outcome, bind. cbv zeta. intros Hm Hk. inversion Hm as [[Hw Hr]].
  rewrite Hr, Hw. destruct (result (m2 w)) as [e | a]; cbn [world_after result].
  - reflexivity.
  - exact (Hk a (world_after (m2 w))).
Qed.

Lemma for_each_outcome {A B} (b1 b2 : B -> A -> M World B) :
  (forall acc x w, outcome (b1 acc x w) = outcome (b2 acc x w)) ->
  forall l acc w, outcome (for_each b1 acc l w) = outcome (for_each b2 acc l w).
Proof.
  intros Hb l. induction l as [| x l IH]; intros acc w.
  - reflexivity.
  - cbn [for_each]. apply bind_outcome; [apply Hb | intros; apply IH].
Qed.

Section Blind.

(** The upstream does not look at the credentials. *)
Hypothesis blind : forall w req req', same_but_auth req req' -> send w req = send w req'.

Variables c1 c2 : Client.
Hypothesis same_base : base_url c1 = base_url c2.
Hypothesis same_timeout : timeout c1 = timeout c2.
Hypothesis same_cert : cert c1 = cert c2.

Lemma client_get_outcome path params w :
  outcome (client_get send c1 path params w)
  = outcome (client_get send c2 path params w).
Proof.
  unfold client_get.
  rewrite (blind w (mkRequest c1 path params) (mkRequest c2 path params))
    by (repeat split; assumption).
  destruct (send w (mkRequest c2 path params)) as [w' [msg | r]]; reflexivity.
Qed.

Lemma fetch_account_outcome max_count results acct w :
  outcome (fetch_account send c1 max_count results acct w)
  = outcome (fetch_account send c2 max_count results acct w).
Proof.
  unfold fetch_account.
  apply bind_outcome; [reflexivity |]. intros acct_id w1.
  destruct (negb (truthy acct_id)); [reflexivity |].
  apply bind_outcome; [apply client_get_outcome |]. intros rb w2.
  do 2 (apply bind_outcome; [reflexivity |]; intros).
  apply bind_outcome; [apply client_get_outcome |]. intros rt w3.
  repeat (apply bind_outcome; [reflexivity |]; intros).
  reflexivity.
Qed.

Lemma with_body_outcome max_count w :
  outcome (fetch_all_with_body send max_count c1 w)
  = outcome (fetch_all_with_body send max_count c2 w).
Proof.
  unfold fetch_all_with_body.
  apply bind_outcome; [apply client_get_outcome |]. intros r w1.
  do 2 (apply bind_outcome; [reflexivity |]; intros).
  destruct a0; try reflexivity.
  apply for_each_outcome. intros. apply fetch_account_outcome.
Qed.

End Blind.

End Runs.

(** ** From the [with] body to the handler *)

Section Handler_facts.

Context {World : Type} (new_client : Client -> option string)
  (send : World -> Request -> World * (string + Response)).

Lemma fetch_all_result cfg payload w c :
  truthy (dict_get payload "accessToken") = true ->
  _make_client new_client cfg (dict_get payload "accessToken") = inr c ->
  result (fetch_all new_client send cfg payload w) =
    match result (fetch_all_with_body send
                    (py_or (dict_get payload "count") (JInt 50)) c w) with
    | inl e => inl (except_clauses e)
    | inr rs => inr (mkFetchResponse rs)
    end.
Proof. intros Ht Hc. rewrite fetch_all_run, Ht, Hc. reflexivity. Qed.

Lemma with_body_entries max_count c w r entries :
  snd (send w (mkRequest c Accounts None)) = inr r ->
  is_success r = true ->
  json_body r = inr (JList entries) ->
  result (fetch_all_with_body send max_count c w) =
    result (for_each (fetch_account send c max_count) [] entries
              (fst (send w (mkRequest c Accounts None)))).
Proof.
  intros Hs Hok Hj. unfold fetch_all_with_body.
  rewrite get_checked_run. cbv zeta. rewrite Hs, Hok. cbn [result].
  rewrite bind_response_json, Hj. reflexivity.
Qed.

Lemma with_body_not_list max_count c w r v :
  snd (send w (mkRequest c Accounts None)) = inr r ->
  is_success r = true ->
  json_body r = inr v ->
  is_list v = false ->
  result (fetch_all_with_body send max_count c w) =
    inl (HTTPException 502 "Unexpected accounts payload").
Proof.
  intros Hs Hok Hj Hl. unfold fetch_all_with_body.
  rewrite get_checked_run. cbv zeta. rewrite Hs, Hok. cbn [result].
  rewrite bind_response_json, Hj. destruct v; try discriminate; reflexivity.
Qed.

(** What the handler does with an accounts body that is not a list:
    the 502 raised inside [try] is caught by the last clause. *)
Lemma fetch_all_not_list cfg payload w c r v :
  truthy (dict_get payload "accessToken") = true ->
  _make_client new_client cfg (dict_get payload "accessToken") = inr c ->
  snd (send w (mkRequest c Accounts None)) = inr r ->
  is_success r = true ->
  json_body r = inr v ->
  is_list v = false ->
  result (fetch_all new_client send cfg payload w) =
    inl (HTTPException 500 "502: Unexpected accounts payload").
Proof.
  intros Ht Hc Hs Hok Hj Hl.
  rewrite (fetch_all_result cfg payload w c Ht Hc).
  rewrite (with_body_not_list _ c w r v Hs Hok Hj Hl). reflexivity.
Qed.

End Handler_facts.

(** A complete run: two entries, the second without an identifier. *)
Example fetch_all_two_entries :
  fetch_all accepts (counting_send (upstream two_entries a_balance some_transactions))
    sandbox [("accessToken", JStr "tok")] 0%nat =
  mkRun 3%nat
    [EvOpen (sandbox_client "tok");
     EvGet (mkRequest (sandbox_client "tok") Accounts None) two_entries;
     EvGet (mkRequest (sandbox_client "tok") (Balances (JStr "a1")) None) a_balance;
     EvGet (mkRequest (sandbox_client "tok") (Transactions (JStr "a1"))
              (Some [("count", JInt 50)]))
       some_transactions;
     EvClose (sandbox_client "tok")]
    (inr (mkFetchResponse
            [mkAccountResult
               (mkAccountOut (JStr "a1") (JStr "Checking") (JStr "Chase")
                  (JStr "1234") (JStr "depository"))
               (mkBalanceOut (JStr "10.00") (JStr "12.50"))
               [JObj [("id", JStr "t1"); ("amount", JStr "-3.20")]]])).
Proof. vm_compute. reflexivity. Qed.

(** ** The claims *)

(** C1. Whenever a request of the run (the accounts call, or the
    balances or transactions call of any account) is answered with a
    status outside 2xx, the handler raises an [HTTPException] with that
    status and the detail ["Teller API error [<status>]: <body text>"];
    the run has no response body, so nothing gathered for earlier
    accounts reaches the caller. *)
Theorem upstream_status_error_fails_request (new_client : Client -> option string) {World}
    (send : World -> Request -> World * (string + Response))
    (cfg : Config) (payload : dict) (w : World) (ev : event) (resp : Response) :
  In ev (events (fetch_all new_client send cfg payload w)) ->
  failed_get ev resp ->
  result (fetch_all new_client send cfg payload w) =
    inl (HTTPException (status_code resp)
           ("Teller API error [" ++ str_int (status_code resp) ++ "]: " ++ text resp))
  /\ forall out, result (fetch_all new_client send cfg payload w) <> inr out.
Proof.
  intros Hin Hf.
  assert (H : result (fetch_all new_client send cfg payload w) =
              inl (HTTPException (status_code resp)
                     ("Teller API error [" ++ str_int (status_code resp) ++ "]: "
                        ++ text resp))).
  { revert Hin. rewrite fetch_all_run.
    destruct (truthy (dict_get payload "accessToken")); [| intros []].
    destruct (_make_client new_client cfg (dict_get payload "accessToken")) as [e | c]; [intros [] |].
    cbv zeta. cbn [events result]. intros Hin.
    assert (Hb : In ev (events (fetch_all_with_body send
                                  (py_or (dict_get payload "count") (JInt 50)) c w))).
    { destruct Hf as [[req ->] _]. destruct Hin as [Hin | Hin]; [discriminate |].
      apply in_app_or in Hin. destruct Hin as [Hin | [Hin | []]];
        [assumption | discriminate]. }
    rewrite (proj1 (with_body_status send _ c w resp)) by eauto.
    reflexivity. }
  split; [exact H |]. intros out Hout. rewrite H in Hout. discriminate.
Qed.

Lemma upstream_status_error_fails_request_witness :
  result (fetch_all accepts (counting_send (upstream two_entries not_found some_transactions))
            sandbox [("accessToken", JStr "tok")] 0%nat) =
    inl (HTTPException 404 "Teller API error [404]: account not found").
Proof.
  refine (proj1 (upstream_status_error_fails_request accepts
                   (counting_send (upstream two_entries not_found some_transactions))
                   sandbox [("accessToken", JStr "tok")] 0%nat
                   (EvGet (mkRequest (sandbox_client "tok") (Balances (JStr "a1")) None)
                      not_found)
                   (mkResponse 404 "account not found"
                      (inl "Expecting value: line 1 column 1 (char 0)"))
                   _ _)).
  - vm_compute. right. right. left. reflexivity.
  - split; [eexists; reflexivity | reflexivity].
Defined.

(** C2. An accounts response with status 200 and the JSON object
    [{"accounts": []}] as its body: the handler raises its 502
    [HTTPException] inside the [try] block, the [except Exception]
    clause catches it, and the caller gets status 500 with the detail
    ["502: Unexpected accounts payload"]. *)
Theorem non_list_accounts_answered_500 :
  fetch_all accepts
    (counting_send
       (upstream (ok_json "{...}" (JObj [("accounts", JList [])]))
          a_balance some_transactions))
    sandbox [("accessToken", JStr "tok")] 0%nat =
  mkRun 1%nat
    [EvOpen (sandbox_client "tok");
     EvGet (mkRequest (sandbox_client "tok") Accounts None)
       (ok_json "{...}" (JObj [("accounts", JList [])]));
     EvClose (sandbox_client "tok")]
    (inl (HTTPException 500 "502: Unexpected accounts payload")).
Proof. vm_compute. reflexivity. Qed.




(** C4. A request body whose [accessToken] is absent, null or the empty
    string is answered by a 400 [HTTPException]; the run has no event
    at all (no client opened, no request sent) and leaves the world as
    it was. *)
Theorem fetch_all_missing_access_token (new_client : Client -> option string) {World}
    (send : World -> Request -> World * (string + Response))
    (cfg : Config) (payload : dict) (w : World) :
  ~ has_key payload "accessToken"
  \/ dict_get payload "accessToken" = JNull
  \/ dict_get payload "accessToken" = JStr "" ->
  fetch_all new_client send cfg payload w =
    mkRun w [] (inl (HTTPException 400 "Missing 'accessToken' in request body")).
Proof.
  intros H. rewrite fetch_all_run.
  assert (Hf : truthy (dict_get payload "accessToken") = false).
  { destruct H as [H | [H | H]].
    - now rewrite (dict_get_unbound _ _ H).
    - now rewrite H.
    - now rewrite H. }
  now rewrite Hf.
Qed.

Lemma fetch_all_missing_access_token_witness :
  fetch_all accepts (counting_send (upstream two_entries a_balance some_transactions)) sandbox
    [("accessToken", JStr ""); ("count", JInt 10)] 0%nat =
  mkRun 0%nat [] (inl (HTTPException 400 "Missing 'accessToken' in request body")).
Proof.
  apply fetch_all_missing_access_token. right. right. reflexivity.
Defined.

(** C5 as amended. Every transactions request of a run carries
    [{"count": c}] where [c] is the [count] of the request body when
    that value is truthy, and 50 when it is falsy (0, false, null, an
    empty string, list or object) or when the body has no [count]. *)
Theorem transactions_call_carries_count (new_client : Client -> option string) {World}
    (send : World -> Request -> World * (string + Response))
    (cfg : Config) (payload : dict) (w : World)
    (req : Request) (res : string + Response) (i : json) :
  In (EvGet req res) (events (fetch_all new_client send cfg payload w)) ->
  req_path req = Transactions i ->
  (truthy (dict_get payload "count") = true ->
   req_params req = Some [("count", dict_get payload "count")])
  /\ (truthy (dict_get payload "count") = false ->
      req_params req = Some [("count", JInt 50)])
  /\ (~ has_key payload "count" -> req_params req = Some [("count", JInt 50)]).
Proof.
  intros Hin Hpath.
  pose proof (fetch_all_count new_client send cfg payload w) as Hall.
  rewrite Forall_forall in Hall. specialize (Hall _ Hin).
  cbn [carries_count] in Hall. rewrite Hpath in Hall. unfold py_or in Hall.
  split; [| split].
  - intros Ht. now rewrite Ht in Hall.
  - intros Hf. now rewrite Hf in Hall.
  - intros Hk. rewrite (dict_get_unbound _ _ Hk) in Hall. exact Hall.
Qed.

Lemma transactions_call_carries_count_witness :
  In (EvGet (mkRequest (sandbox_client "tok") (Transactions (JStr "a1"))
               (Some [("count", JInt 10)]))
        some_transactions)
     (events (fetch_all accepts
                (counting_send (upstream two_entries a_balance some_transactions))
                sandbox [("accessToken", JStr "tok"); ("count", JInt 10)] 0%nat))
  /\ req_params (mkRequest (sandbox_client "tok") (Transactions (JStr "a1"))
                   (Some [("count", JInt 10)]))
     = Some [("count", JInt 10)].
Proof.
  assert (Hin : In (EvGet (mkRequest (sandbox_client "tok") (Transactions (JStr "a1"))
                             (Some [("count", JInt 10)]))
                      some_transactions)
                  (events (fetch_all accepts
                             (counting_send
                                (upstream two_entries a_balance some_transactions))
                             sandbox [("accessToken", JStr "tok"); ("count", JInt 10)]
                             0%nat))).
  { vm_compute. do 3 right. left. reflexivity. }
  split; [exact Hin |].
  apply (proj1 (transactions_call_carries_count accepts
                  (counting_send (upstream two_entries a_balance some_transactions))
                  sandbox [("accessToken", JStr "tok"); ("count", JInt 10)] 0%nat
                  _ _ (JStr "a1") Hin eq_refl)).
  reflexivity.
Defined.

(** C5 as stated fails: the body supplies [count: 0], and the
    transactions request of the run carries 50. *)
Lemma count_zero_replaced_by_default :
  let run :=
    fetch_all accepts (counting_send (upstream two_entries a_balance some_transactions))
      sandbox [("accessToken", JStr "tok"); ("count", JInt 0)] 0%nat in
  In (EvGet (mkRequest (sandbox_client "tok") (Transactions (JStr "a1"))
               (Some [("count", JInt 50)]))
        some_transactions)
     (events run)
  /\ ~ Forall (carries_count (JInt 0)) (events run).
Proof.
  cbv zeta.
  assert (Hin : In (EvGet (mkRequest (sandbox_client "tok") (Transactions (JStr "a1"))
                             (Some [("count", JInt 50)]))
                      some_transactions)
                  (events (fetch_all accepts
                             (counting_send (upstream two_entries a_balance some_transactions))
                             sandbox [("accessToken", JStr "tok"); ("count", JInt 0)] 0%nat))).
  { vm_compute. do 3 right. left. reflexivity. }
  split; [exact Hin |].
  intros Hall. rewrite Forall_forall in Hall. specialize (Hall _ Hin).
  cbn in Hall. discriminate.
Qed.

(** C6. In development or production, with the certificate path or the
    key path unset, [_make_client] raises its [RuntimeError] for every
    token, and a request that reaches the factory is answered by a 500
    [HTTPException] carrying that message, with no event in the run:
    the failure comes before any upstream call. *)
Theorem make_client_configuration_error (new_client : Client -> option string)
    (cfg : Config) :
  TELLER_ENV cfg = "development" \/ TELLER_ENV cfg = "production" ->
  TELLER_CERT_PATH cfg = None \/ TELLER_KEY_PATH cfg = None ->
  (forall token,
      _make_client new_client cfg token =
        inl (RuntimeError
               "TELLER_CERT_PATH and TELLER_KEY_PATH are required in development/production."))
  /\ (forall World (send : World -> Request -> World * (string + Response)) payload w,
         truthy (dict_get payload "accessToken") = true ->
         fetch_all new_client send cfg payload w =
           mkRun w []
             (inl (HTTPException 500
                     "TELLER_CERT_PATH and TELLER_KEY_PATH are required in development/production."))).
Proof.
  intros Henv Hpath.
  assert (Hm : requires_mtls cfg = true).
  { unfold requires_mtls. destruct Henv as [-> | ->]; reflexivity. }
  assert (Hf : truthy_opt (TELLER_CERT_PATH cfg) = false
               \/ truthy_opt (TELLER_KEY_PATH cfg) = false).
  { destruct Hpath as [-> | ->]; [left | right]; reflexivity. }
  split.
  - intros token. now apply make_client_falsy_paths.
  - intros World send payload w Ht.
    rewrite fetch_all_run, Ht, (make_client_falsy_paths new_client cfg _ Hm Hf).
    reflexivity.
Qed.

Lemma make_client_configuration_error_witness :
  _make_client accepts production_without_cert (JStr "tok") =
    inl (RuntimeError
           "TELLER_CERT_PATH and TELLER_KEY_PATH are required in development/production.")
  /\ fetch_all accepts (counting_send (upstream two_entries a_balance some_transactions))
       production_without_cert [("accessToken", JStr "tok")] 0%nat =
     mkRun 0%nat []
       (inl (HTTPException 500
               "TELLER_CERT_PATH and TELLER_KEY_PATH are required in development/production.")).
Proof.
  destruct (make_client_configuration_error accepts production_without_cert
              (or_intror eq_refl) (or_introl eq_refl)) as [Hf Hh].
  split.
  - apply Hf.
  - apply Hh. reflexivity.
Defined.

(** C7 as amended. For an account entry that is an object with a
    truthy [id] and an [institution] that is an object or falsy, whose
    balances call answered 2xx with a body that is an object or falsy:
    when the transactions call answers 2xx with a JSON body that is not
    a list, the loop body raises nothing and appends one result whose
    [transactions] is the empty list. *)
Theorem non_list_transactions_become_empty {World}
    (send : World -> Request -> World * (string + Response))
    (client : Client) (max_count : json) (results : list AccountResult)
    (d : dict) (w : World) (rb rt : Response) (vb vt : json) :
  dict_or_falsy (dict_get d "institution") = true ->
  truthy (dict_get d "id") = true ->
  snd (send w (mkRequest client (Balances (dict_get d "id")) None)) = inr rb ->
  is_success rb = true ->
  json_body rb = inr vb ->
  dict_or_falsy vb = true ->
  snd (send (fst (send w (mkRequest client (Balances (dict_get d "id")) None)))
         (mkRequest client (Transactions (dict_get d "id"))
            (Some [("count", max_count)]))) = inr rt ->
  is_success rt = true ->
  json_body rt = inr vt ->
  is_list vt = false ->
  exists r,
    result (fetch_account send client max_count results (JObj d) w)
      = inr (results ++ [r])%list
    /\ transactions r = [].
Proof.
  intros Hinst Hid Hb Hbs Hbj Hbv Ht Hts Htj Htl.
  destruct (fetch_account_non_list_transactions send client max_count results d w
              rb vb rt vt Hinst Hid Hb Hbs Hbj Hbv Ht Hts Htj Htl)
    as [r [Hr [Htx _]]].
  exists r. split; assumption.
Qed.

Lemma non_list_transactions_become_empty_witness :
  exists r,
    result (fetch_account
              (counting_send (upstream two_entries a_balance (ok_json "null" JNull)))
              (sandbox_client "tok") (JInt 50) []
              checking 0%nat)
      = inr ([] ++ [r])%list
    /\ transactions r = [].
Proof.
  apply (non_list_transactions_become_empty
           (counting_send (upstream two_entries a_balance (ok_json "null" JNull)))
           (sandbox_client "tok") (JInt 50) []
           [("id", JStr "a1"); ("name", JStr "Checking");
            ("institution", JObj [("name", JStr "Chase")]);
            ("last_four", JStr "1234"); ("type", JStr "depository")]
           0%nat
           (mkResponse 200 "{...}"
              (inr (JObj [("available", JStr "10.00"); ("ledger", JStr "12.50")])))
           (mkResponse 200 "null" (inr JNull))
           (JObj [("available", JStr "10.00"); ("ledger", JStr "12.50")])
           JNull); reflexivity.
Defined.

(** C7 as stated fails: the transactions call answers 200 with [null],
    the balances call had answered 200 with a one-element list, and
    the request is answered by a 500 raised for that account. *)
Lemma list_balance_raises_after_null_transactions :
  fetch_all accepts
    (counting_send
       (upstream (ok_json "[{...a1...}]" (JList [checking]))
          (ok_json "[{...}]"
             (JList [JObj [("available", JStr "10.00"); ("ledger", JStr "12.50")]]))
          (ok_json "null" JNull)))
    sandbox [("accessToken", JStr "tok")] 0%nat =
  mkRun 3%nat
    [EvOpen (sandbox_client "tok");
     EvGet (mkRequest (sandbox_client "tok") Accounts None)
       (ok_json "[{...a1...}]" (JList [checking]));
     EvGet (mkRequest (sandbox_client "tok") (Balances (JStr "a1")) None)
       (ok_json "[{...}]"
          (JList [JObj [("available", JStr "10.00"); ("ledger", JStr "12.50")]]));
     EvGet (mkRequest (sandbox_client "tok") (Transactions (JStr "a1"))
              (Some [("count", JInt 50)]))
       (ok_json "null" JNull);
     EvClose (sandbox_client "tok")]
    (inl (HTTPException 500 "'list' object has no attribute 'get'")).
Proof. vm_compute. reflexivity. Qed.

(** C8. For an account entry [d] with an identifier, let [v] be the
    [name] of its [institution] when that is an object (null when the
    object has no name), and null when [institution] is unbound or
    null.  The extraction gives [v] and raises nothing; whenever the
    loop body returns for the entry it has appended a result whose
    [institution] field is [v]; and it does return, with such a
    result, once its two calls are answered 2xx with bodies that
    decode, the balances body being an object or a falsy value. *)
Theorem institution_name_extraction {World}
    (send : World -> Request -> World * (string + Response))
    (client : Client) (max_count : json) (results : list AccountResult)
    (d : dict) (w : World) (v : json) :
  truthy (dict_get d "id") = true ->
  (exists o, dict_get d "institution" = JObj o /\ v = dict_get o "name")
  \/ ((~ has_key d "institution" \/ dict_get d "institution" = JNull) /\ v = JNull) ->
  institution_name (JObj d) = inr v
  /\ (forall rs,
         result (fetch_account send client max_count results (JObj d) w) = inr rs ->
         exists r, rs = (results ++ [r])%list /\ out_institution (account r) = v)
  /\ (forall rb vb rt vt,
         snd (send w (mkRequest client (Balances (dict_get d "id")) None)) = inr rb ->
         is_success rb = true ->
         json_body rb = inr vb ->
         dict_or_falsy vb = true ->
         snd (send (fst (send w (mkRequest client (Balances (dict_get d "id")) None)))
                (mkRequest client (Transactions (dict_get d "id"))
                   (Some [("count", max_count)]))) = inr rt ->
         is_success rt = true ->
         json_body rt = inr vt ->
         exists r,
           result (fetch_account send client max_count results (JObj d) w)
           = inr (results ++ [r])%list
           /\ out_institution (account r) = v).
Proof.
  intros Hid Hv.
  assert (Hname : institution_name (JObj d) = inr v).
  { unfold institution_name. cbn [py_get].
    destruct Hv as [[o [Ho ->]] | [Hn ->]].
    - rewrite Ho. unfold py_or. destruct o as [| kv o]; reflexivity.
    - assert (Hnull : dict_get d "institution" = JNull).
      { destruct Hn as [Hn | Hn]; [now apply dict_get_unbound | assumption]. }
      rewrite Hnull. reflexivity. }
  split; [exact Hname |]. split.
  - intros rs Hrs.
    destruct (fetch_account_success send client max_count results (JObj d) w rs Hrs)
      as [d' [Hd [[Hf _] | [_ [rb [rt [vb [vt [r Hr]]]]]]]]];
      inversion Hd; subst d'; [congruence |].
    destruct Hr as [_ [_ [_ [Hrs' [[_ [_ [Hinst _]]] _]]]]].
    exists r. split; [assumption | congruence].
  - intros rb vb rt vt Hb Hbs Hbj Hbv Ht Hts Htj.
    rewrite (fetch_account_answered send client max_count results d w rb vb rt vt
               Hid Hb Hbs Hbj Ht Hts Htj), Hname.
    destruct (py_get_dict_or_falsy vb "available" Hbv) as [av ->].
    destruct (py_get_dict_or_falsy vb "ledger" Hbv) as [le ->].
    eexists. split; reflexivity.
Qed.

Lemma institution_name_extraction_witness :
  exists r,
    result (fetch_account
              (counting_send (upstream two_entries a_balance some_transactions))
              (sandbox_client "tok") (JInt 50) [] checking 0%nat)
    = inr ([] ++ [r])%list
    /\ out_institution (account r) = JStr "Chase".
Proof.
  refine (proj2 (proj2 (institution_name_extraction
                          (counting_send (upstream two_entries a_balance some_transactions))
                          (sandbox_client "tok") (JInt 50) []
                          [("id", JStr "a1"); ("name", JStr "Checking");
                           ("institution", JObj [("name", JStr "Chase")]);
                           ("last_four", JStr "1234"); ("type", JStr "depository")]
                          0%nat (JStr "Chase") eq_refl _))
            (mkResponse 200 "{...}"
               (inr (JObj [("available", JStr "10.00"); ("ledger", JStr "12.50")])))
            (JObj [("available", JStr "10.00"); ("ledger", JStr "12.50")])
            (mkResponse 200 "[{...}]"
               (inr (JList [JObj [("id", JStr "t1"); ("amount", JStr "-3.20")]])))
            (JList [JObj [("id", JStr "t1"); ("amount", JStr "-3.20")]])
            eq_refl eq_refl eq_refl eq_refl eq_refl eq_refl eq_refl).
  left. exists [("name", JStr "Chase")]. split; reflexivity.
Defined.

(** C9 as amended. The handler itself writes nothing of the access
    token into an error.  The status and the text of every failed
    request are: the fixed text of the token check (400); the fixed
    text of the configuration error (500); the message of what the
    client constructor raised on the arguments built from the token
    (500); the status of an upstream answer outside 2xx with its body
    after the fixed prefix; the message of a transport or of a decoding
    failure of a request of the run (500); the text of the handler's
    own 502 (500); or the text of a [get] on a value that is not a
    dict, which names the type of that value only (500).  Hence, when
    neither the upstream's answers nor the constructor's verdict depend
    on the credentials, two request bodies with truthy tokens and the
    same [count] end in the same world with the same result: on
    failure, the same status and the same error text. *)
Theorem error_text_sources (new_client : Client -> option string) {World}
    (send : World -> Request -> World * (string + Response))
    (cfg : Config) (payload : dict) (w : World) :
  (forall e,
      result (fetch_all new_client send cfg payload w) = inl e ->
      exists s d,
        e = HTTPException s d
        /\ error_text_source new_client (dict_get payload "accessToken")
             (events (fetch_all new_client send cfg payload w)) s d)
  /\ (forall payload',
         (forall w req req', same_but_auth req req' -> send w req = send w req') ->
         (forall crt,
             new_client (mkClient TELLER_API_BASE (dict_get payload "accessToken", "")
                           timeout_30 crt)
             = new_client (mkClient TELLER_API_BASE (dict_get payload' "accessToken", "")
                             timeout_30 crt)) ->
         truthy (dict_get payload "accessToken") = true ->
         truthy (dict_get payload' "accessToken") = true ->
         dict_get payload "count" = dict_get payload' "count" ->
         outcome (fetch_all new_client send cfg payload w)
         = outcome (fetch_all new_client send cfg payload' w)).
Proof.
  split.
  - intros e. rewrite fetch_all_run. unfold error_text_source.
    destruct (truthy (dict_get payload "accessToken")).
    2: { cbn. intros H. inversion H. do 2 eexists. split; [reflexivity |]. now left. }
    destruct (_make_client new_client cfg (dict_get payload "accessToken"))
      as [e' | c] eqn:Emk.
    + destruct (make_client_raised new_client cfg _ _ Emk) as [-> | [crt [msg [Hn ->]]]];
        cbn; intros H; inversion H; do 2 eexists; (split; [reflexivity |]).
      * right. left. now split.
      * right. right. left. split; [reflexivity |]. eauto.
    + cbv zeta. cbn [events result].
      destruct (result (fetch_all_with_body send _ c w)) as [e' | rs] eqn:Er;
        [| discriminate].
      pose proof (with_body_raised send _ c w e' Er) as Hfrom.
      assert (Hin : forall ev,
                 In ev (events (fetch_all_with_body send
                                  (py_or (dict_get payload "count") (JInt 50)) c w)) ->
                 In ev (EvOpen c
                          :: events (fetch_all_with_body send
                                       (py_or (dict_get payload "count") (JInt 50)) c w)
                          ++ [EvClose c])).
      { intros ev Hev. right. apply in_or_app. now left. }
      intros H. inversion H. subst e. clear H.
      destruct e' as [s d | r | m | m | m | m | m]; cbn in Hfrom; cbn [except_clauses];
        do 2 eexists; (split; [reflexivity |]).
      * destruct Hfrom as [-> ->]. do 6 right. left. split; reflexivity.
      * destruct Hfrom as [req [Hev Hs]]. do 3 right. left.
        exists req, r. repeat split; auto.
      * contradiction.
      * destruct Hfrom as [v [Hd ->]]. do 7 right. split; [reflexivity |]. eauto.
      * destruct Hfrom as [req [r [Hev [Hs Hj]]]]. do 5 right. left.
        split; [reflexivity |]. exists req, r. repeat split; auto.
      * destruct Hfrom as [req Hev]. do 4 right. left.
        split; [reflexivity |]. exists req. auto.
      * contradiction.
  - intros payload' Hblind Hsame Ht1 Ht2 Hcount.
    rewrite !fetch_all_run, Ht1, Ht2, Hcount.
    destruct (make_client_cases new_client cfg (dict_get payload "accessToken"))
      as [Hr | [crt Hc]].
    + destruct (make_client_cases new_client cfg (dict_get payload' "accessToken"))
        as [Hr2 | [crt Hc]].
      * rewrite Hr, Hr2. reflexivity.
      * rewrite Hc in Hr. unfold httpx_Client in Hr.
        destruct (new_client _); discriminate.
    + rewrite (Hc (dict_get payload "accessToken")), (Hc (dict_get payload' "accessToken")).
      unfold httpx_Client. rewrite <- (Hsame crt).
      destruct (new_client
                  (mkClient TELLER_API_BASE (dict_get payload "accessToken", "")
                     timeout_30 crt)); [reflexivity |].
      cbv zeta.
      pose proof (with_body_outcome send Hblind
                    (mkClient TELLER_API_BASE (dict_get payload "accessToken", "")
                       timeout_30 crt)
                    (mkClient TELLER_API_BASE (dict_get payload' "accessToken", "")
                       timeout_30 crt)
                    eq_refl eq_refl eq_refl
                    (py_or (dict_get payload' "count") (JInt 50)) w) as H.
      unfold outcome in *. cbn [world_after result]. inversion H as [[Hw Hres]].
      rewrite Hres. reflexivity.
Qed.

Lemma error_text_sources_witness :
  (exists s d,
      HTTPException 404 "Teller API error [404]: account not found" = HTTPException s d
      /\ error_text_source accepts (JStr "token-one")
           (events (fetch_all accepts
                      (counting_send (upstream two_entries not_found some_transactions))
                      sandbox [("accessToken", JStr "token-one")] 0%nat))
           s d)
  /\ outcome (fetch_all accepts
                (counting_send (upstream two_entries not_found some_transactions))
                sandbox [("accessToken", JStr "token-one")] 0%nat)
     = outcome (fetch_all accepts
                  (counting_send (upstream two_entries not_found some_transactions))
                  sandbox [("accessToken", JStr "token-two")] 0%nat).
Proof.
  destruct (error_text_sources accepts
              (counting_send (upstream two_entries not_found some_transactions))
              sandbox [("accessToken", JStr "token-one")] 0%nat) as [Hsrc Hind].
  split.
  - apply Hsrc. vm_compute. reflexivity.
  - apply Hind.
    + intros w req req' [Hpath _]. unfold counting_send. now rewrite Hpath.
    + reflexivity.
    + reflexivity.
    + reflexivity.
    + reflexivity.
Defined.

(** C9 as stated fails: the upstream quotes the user name of the
    credentials in the body of its 401, and the error text the caller
    gets contains the access token. *)
Lemma echoed_token_in_error_text :
  result (fetch_all accepts echo_send sandbox [("accessToken", JStr "tok_live_1234")] 0%nat)
    = inl (HTTPException 401
             "Teller API error [401]: bad credentials: tok_live_1234")
  /\ contains "tok_live_1234"
       "Teller API error [401]: bad credentials: tok_live_1234" = true.
Proof. split; vm_compute; reflexivity. Qed.

(** C10 as amended. When the accounts call answers 2xx with a list one
    of whose entries is not an object, the request fails: the entry is
    never skipped and no response body is returned.  The status is 500
    unless a balances or transactions call made for an earlier entry
    was answered with a status outside 2xx, in which case the status
    is that of the call. *)
Theorem non_mapping_entry_fails_request (new_client : Client -> option string) {World}
    (send : World -> Request -> World * (string + Response))
    (cfg : Config) (payload : dict) (w : World) (c : Client) (r : Response)
    (entries : list json) :
  truthy (dict_get payload "accessToken") = true ->
  _make_client new_client cfg (dict_get payload "accessToken") = inr c ->
  snd (send w (mkRequest c Accounts None)) = inr r ->
  is_success r = true ->
  json_body r = inr (JList entries) ->
  (exists x, In x entries /\ is_dict x = false) ->
  exists s d,
    result (fetch_all new_client send cfg payload w) = inl (HTTPException s d)
    /\ (s = 500
        \/ exists ev resp,
            In ev (events (fetch_all new_client send cfg payload w))
            /\ failed_get ev resp /\ s = status_code resp).
Proof.
  intros Ht Hc Hs Hok Hj Hbad.
  destruct (for_each_non_dict send c (py_or (dict_get payload "count") (JInt 50))
              entries Hbad [] (fst (send w (mkRequest c Accounts None)))) as [e He].
  assert (Hres : result (fetch_all new_client send cfg payload w) = inl (except_clauses e)).
  { rewrite (fetch_all_result new_client send cfg payload w c Ht Hc).
    rewrite (with_body_entries send _ c w r entries Hs Hok Hj), He. reflexivity. }
  destruct (fetch_all_error_status new_client send cfg payload w _ Hres)
    as [s [d [Heq [[_ Hf] | Hcases]]]].
  - congruence.
  - exists s, d. rewrite Hres, Heq. split; [reflexivity | exact Hcases].
Qed.

Lemma non_mapping_entry_fails_request_witness :
  exists s d,
    result (fetch_all accepts
              (counting_send
                 (upstream (ok_json "[{...a1...}, 7]" (JList [checking; JInt 7]))
                    a_balance some_transactions))
              sandbox [("accessToken", JStr "tok")] 0%nat)
      = inl (HTTPException s d)
    /\ (s = 500
        \/ exists ev resp,
            In ev (events (fetch_all accepts
                             (counting_send
                                (upstream (ok_json "[{...a1...}, 7]"
                                             (JList [checking; JInt 7]))
                                   a_balance some_transactions))
                             sandbox [("accessToken", JStr "tok")] 0%nat))
            /\ failed_get ev resp /\ s = status_code resp).
Proof.
  apply (non_mapping_entry_fails_request accepts
           (counting_send
              (upstream (ok_json "[{...a1...}, 7]" (JList [checking; JInt 7]))
                 a_balance some_transactions))
           sandbox [("accessToken", JStr "tok")] 0%nat (sandbox_client "tok")
           (mkResponse 200 "[{...a1...}, 7]" (inr (JList [checking; JInt 7])))
           [checking; JInt 7]).
  - reflexivity.
  - reflexivity.
  - reflexivity.
  - reflexivity.
  - reflexivity.
  - exists (JInt 7). split; [right; left; reflexivity | reflexivity].
Defined.

(** C10 as stated fails: the list holds an account and then a string;
    the balances call of the account answers 404, and the caller gets
    404, not 500. *)
Lemma earlier_status_error_hides_non_mapping_entry :
  result (fetch_all accepts
            (counting_send
               (upstream (ok_json "[{...a1...}, ...]" (JList [checking; JStr "oops"]))
                  not_found some_transactions))
            sandbox [("accessToken", JStr "tok")] 0%nat)
  = inl (HTTPException 404 "Teller API error [404]: account not found").
Proof. vm_compute. reflexivity. Qed.

(** ** Further facts about traces and configuration *)

Lemma account_calls_sent_through c max_count evs :
  account_calls c max_count evs -> Forall (sent_through c) evs.
Proof.
  induction 1; repeat constructor; unfold sent_through; eauto.
Qed.

(** In the calls of the loop, an answer that raises is the last event. *)
Lemma account_calls_last c max_count evs :
  account_calls c max_count evs ->
  forall pre req res post,
    evs = (pre ++ EvGet req res :: post)%list ->
    answer_error res <> None ->
    post = [].
Proof.
  induction 1 as [| i res0 Hi Hne | i rb res0 rest Hi Hb Hstop Hrest IH];
    intros pre req res post Heq Hbad.
  - destruct pre; discriminate.
  - destruct pre as [| x pre]; cbn in Heq.
    + now inversion Heq.
    + destruct pre; discriminate.
  - destruct pre as [| x pre]; cbn in Heq.
    + inversion Heq. subst. congruence.
    + destruct pre as [| y pre]; cbn in Heq.
      * inversion Heq. subst. now apply Hstop.
      * inversion Heq. subst. eapply IH; [reflexivity | assumption].
Qed.

Lemma lower_char_space (c : Ascii.ascii) : is_space c = true -> lower_char c = c.
Proof.
  unfold is_space, lower_char, is_upper. cbv zeta. intros H.
  destruct (65 <=? Ascii.nat_of_ascii c)%nat eqn:E; [| reflexivity].
  apply Nat.leb_le in E.
  apply orb_prop in H. destruct H as [H | H]; apply andb_prop in H;
    destruct H as [_ H]; apply Nat.leb_le in H; lia.
Qed.

Lemma str_lower_app (a b : string) :
  str_lower (a ++ b) = str_lower a ++ str_lower b.
Proof. induction a as [| c a IH]; cbn; [reflexivity | now rewrite IH]. Qed.

Lemma str_lower_space (s : string) : all_space s = true -> str_lower s = s.
Proof.
  induction s as [| c s IH]; cbn; [reflexivity |].
  intros H. apply andb_prop in H. destruct H as [Hc Hs].
  now rewrite (lower_char_space c Hc), (IH Hs).
Qed.

Lemma lstrip_space_app (l x : string) :
  all_space l = true -> lstrip (l ++ x) = lstrip x.
Proof.
  induction l as [| c l IH]; cbn; [reflexivity |].
  intros H. apply andb_prop in H. destruct H as [Hc Hl].
  rewrite Hc. now apply IH.
Qed.

Lemma lstrip_space (s : string) : all_space s = true -> lstrip s = "".
Proof.
  induction s as [| c s IH]; cbn; [reflexivity |].
  intros H. apply andb_prop in H. destruct H as [Hc Hs].
  rewrite Hc. now apply IH.
Qed.

Lemma rstrip_space (r : string) : all_space r = true -> rstrip r = "".
Proof.
  induction r as [| c r IH]; cbn; [reflexivity |].
  intros H. apply andb_prop in H. destruct H as [Hc Hr].
  now rewrite (IH Hr), Hc.
Qed.

Lemma rstrip_app_space (m r : string) :
  all_space r = true -> rstrip (m ++ r) = rstrip m.
Proof.
  intros Hr. induction m as [| c m IH]; cbn.
  - now apply rstrip_space.
  - now rewrite IH.
Qed.

Lemma truthy_opt_some (s : string) : s <> "" -> truthy_opt (Some s) = true.
Proof. destruct s; [congruence | reflexivity]. Qed.

Section Handler_traces.

Context {World : Type} (new_client : Client -> option string)
  (send : World -> Request -> World * (string + Response)).

(** A run has no event at all, or the trace of a run that got its
    client. *)
Lemma fetch_all_trace cfg payload w :
  events (fetch_all new_client send cfg payload w) = []
  \/ exists c,
      truthy (dict_get payload "accessToken") = true
      /\ _make_client new_client cfg (dict_get payload "accessToken") = inr c
      /\ handler_trace c (py_or (dict_get payload "count") (JInt 50))
           (events (fetch_all new_client send cfg payload w)).
Proof.
  rewrite fetch_all_run.
  destruct (truthy (dict_get payload "accessToken")); [| now left].
  destruct (_make_client new_client cfg (dict_get payload "accessToken")) as [e | c]; [now left |].
  right. exists c. split; [reflexivity |]. split; [reflexivity |].
  cbv zeta. cbn [events].
  destruct (with_body_trace send (py_or (dict_get payload "count") (JInt 50)) c w)
    as [res [rest [Hev [Hcalls Hstop]]]].
  exists res, rest. rewrite Hev. split; [reflexivity |]. split; assumption.
Qed.

Lemma fetch_all_answers cfg payload w req res e :
  In (EvGet req res) (events (fetch_all new_client send cfg payload w)) ->
  answer_error res = Some e ->
  result (fetch_all new_client send cfg payload w) = inl (except_clauses e).
Proof.
  rewrite fetch_all_run.
  destruct (truthy (dict_get payload "accessToken")); [| intros []].
  destruct (_make_client new_client cfg (dict_get payload "accessToken")) as [e' | c]; [intros [] |].
  cbv zeta. cbn [events result]. intros Hin He.
  assert (Hb : In (EvGet req res)
                 (events (fetch_all_with_body send
                            (py_or (dict_get payload "count") (JInt 50)) c w))).
  { destruct Hin as [Hin | Hin]; [discriminate |].
    apply in_app_or in Hin. destruct Hin as [Hin | [Hin | []]];
      [assumption | discriminate]. }
  now rewrite (with_body_answers send _ c w req res e Hb He).
Qed.

Lemma fetch_all_success cfg payload w out :
  result (fetch_all new_client send cfg payload w) = inr out ->
  exists c r entries rest,
    _make_client new_client cfg (dict_get payload "accessToken") = inr c
    /\ events (fetch_all new_client send cfg payload w)
       = EvOpen c :: EvGet (mkRequest c Accounts None) (inr r) :: rest ++ [EvClose c]
    /\ is_success r = true
    /\ json_body r = inr (JList entries)
    /\ forallb is_dict entries = true
    /\ Forall2 result_of_entry (filter has_id entries) (accounts out)
    /\ length rest = (2 * length (accounts out))%nat.
Proof.
  rewrite fetch_all_run.
  destruct (truthy (dict_get payload "accessToken")); [| discriminate].
  destruct (_make_client new_client cfg (dict_get payload "accessToken")) as [e | c]; [discriminate |].
  cbv zeta. cbn [events result].
  destruct (result (fetch_all_with_body send _ c w)) as [e | rs] eqn:Er; [discriminate |].
  intros H. inversion H. subst out. cbn [accounts].
  destruct (with_body_success send _ c w rs Er)
    as [r [entries [rest [Hev [Hok [Hj [Hd [Hall Hlen]]]]]]]].
  exists c, r, entries, rest. rewrite Hev. repeat split; assumption.
Qed.

End Handler_traces.

(** ** Further properties of the handler *)

(** X1. A run either has no event, or it opens one client, built from
    the access token (the token as user name, an empty password, the
    Teller base URL), sends every request through that client and
    closes it as its last event, whether the run returns or raises. *)
Theorem requests_go_through_one_client (new_client : Client -> option string) {World}
    (send : World -> Request -> World * (string + Response))
    (cfg : Config) (payload : dict) (w : World) :
  events (fetch_all new_client send cfg payload w) = []
  \/ exists c gets,
      _make_client new_client cfg (dict_get payload "accessToken") = inr c
      /\ auth c = (dict_get payload "accessToken", "")
      /\ base_url c = TELLER_API_BASE
      /\ events (fetch_all new_client send cfg payload w) = (EvOpen c :: gets ++ [EvClose c])%list
      /\ Forall (sent_through c) gets.
Proof.
  destruct (fetch_all_trace new_client send cfg payload w)
    as [Hnil | [c [Ht [Hc [res [rest [Hev [Hcalls Hstop]]]]]]]]; [now left |].
  right. exists c, (EvGet (mkRequest c Accounts None) res :: rest).
  split; [assumption |].
  destruct (make_client_built new_client cfg _ c Hc) as [_ [crt Hcrt]].
  split; [rewrite Hcrt; reflexivity |]. split; [rewrite Hcrt; reflexivity |].
  split; [exact Hev |].
  constructor.
  - unfold sent_through. eauto.
  - eapply account_calls_sent_through. eassumption.
Qed.

(** X2. Whatever goes wrong, only an [HTTPException] leaves the
    handler.  Its status is 400 (a falsy token, with nothing opened or
    sent), the status of an upstream answer outside 2xx, or 500. *)
Theorem only_http_exceptions_leave (new_client : Client -> option string) {World}
    (send : World -> Request -> World * (string + Response))
    (cfg : Config) (payload : dict) (w : World) (e : exn) :
  result (fetch_all new_client send cfg payload w) = inl e ->
  exists s d,
    e = HTTPException s d
    /\ (s = 400 /\ events (fetch_all new_client send cfg payload w) = []
        \/ s = 500
        \/ exists req resp,
            In (EvGet req (inr resp)) (events (fetch_all new_client send cfg payload w))
            /\ is_success resp = false /\ s = status_code resp).
Proof.
  intros H.
  destruct (fetch_all_error_status new_client send cfg payload w e H)
    as [s [d [He [[Hs Hf] | [Hs | [ev [resp [Hin [[[req ->] Hn] Hs]]]]]]]]];
    exists s, d; (split; [assumption |]).
  - left. split; [assumption |]. rewrite fetch_all_run, Hf. reflexivity.
  - right. now left.
  - right. right. eauto.
Qed.

Lemma only_http_exceptions_leave_witness :
  exists s d,
    HTTPException 404 "Teller API error [404]: account not found" = HTTPException s d
    /\ (s = 400
        /\ events (fetch_all accepts (counting_send (upstream two_entries not_found some_transactions))
                     sandbox [("accessToken", JStr "tok")] 0%nat) = []
        \/ s = 500
        \/ exists req resp,
            In (EvGet req (inr resp))
              (events (fetch_all accepts
                         (counting_send (upstream two_entries not_found some_transactions))
                         sandbox [("accessToken", JStr "tok")] 0%nat))
            /\ is_success resp = false /\ s = status_code resp).
Proof.
  apply (only_http_exceptions_leave accepts
           (counting_send (upstream two_entries not_found some_transactions))
           sandbox [("accessToken", JStr "tok")] 0%nat).
  vm_compute. reflexivity.
Defined.

(** X3. Fail fast on the wire: after a request whose answer raises (a
    transport failure, a status outside 2xx, or a body that does not
    decode) the run sends nothing more; the only event left is the
    closing of the client. *)
Theorem nothing_requested_after_a_failure (new_client : Client -> option string) {World}
    (send : World -> Request -> World * (string + Response))
    (cfg : Config) (payload : dict) (w : World)
    (pre post : list event) (req : Request) (res : string + Response) :
  events (fetch_all new_client send cfg payload w) = (pre ++ EvGet req res :: post)%list ->
  answer_error res <> None ->
  post = [EvClose (req_client req)].
Proof.
  intros Heq Hbad.
  destruct (fetch_all_trace new_client send cfg payload w)
    as [Hnil | [c [_ [_ [res0 [rest [Hev [Hcalls Hstop]]]]]]]].
  - rewrite Hnil in Heq. destruct pre; discriminate.
  - rewrite Hev in Heq. destruct pre as [| x pre]; [discriminate |].
    cbn in Heq. inversion Heq as [[Hx Htail]]. clear Heq.
    destruct pre as [| y pre]; cbn in Htail.
    + inversion Htail. subst. rewrite (Hstop Hbad). reflexivity.
    + inversion Htail as [[Hy Hrest]]. clear Htail.
      destruct (exists_last (l := EvGet req res :: post) ltac:(discriminate))
        as [body [z Hlast]].
      assert (Hsplit : ((pre ++ body) ++ [z])%list = (rest ++ [EvClose c])%list).
      { rewrite <- app_assoc, <- Hlast. symmetry. exact Hrest. }
      apply app_inj_tail in Hsplit. destruct Hsplit as [Hrest' Hz]. subst z.
      destruct body as [| b body].
      * cbn in Hlast. inversion Hlast.
      * cbn in Hlast. inversion Hlast as [[Hb Hpost]]. subst b post.
        assert (body = []) as ->.
        { eapply account_calls_last; [exact Hcalls | symmetry; exact Hrest' | exact Hbad]. }
        assert (Hin : In (EvGet req res) rest).
        { rewrite <- Hrest'. apply in_or_app. right. now left. }
        pose proof (account_calls_sent_through _ _ _ Hcalls) as Hall.
        rewrite Forall_forall in Hall.
        destruct (Hall _ Hin) as [path [params [res' Hsent]]].
        inversion Hsent. reflexivity.
Qed.

Lemma nothing_requested_after_a_failure_witness :
  [EvClose (sandbox_client "tok")]
  = [EvClose (req_client (mkRequest (sandbox_client "tok") (Balances (JStr "a1")) None))].
Proof.
  apply (nothing_requested_after_a_failure accepts
           (counting_send (upstream two_entries not_found some_transactions))
           sandbox [("accessToken", JStr "tok")] 0%nat
           [EvOpen (sandbox_client "tok");
            EvGet (mkRequest (sandbox_client "tok") Accounts None) two_entries]
           [EvClose (sandbox_client "tok")]
           (mkRequest (sandbox_client "tok") (Balances (JStr "a1")) None)
           not_found).
  - vm_compute. reflexivity.
  - vm_compute. discriminate.
Defined.



(** X5. A request that fails in transport (no response at all) ends
    the run with status 500 and the message of the failure as
    detail. *)
Theorem transport_failure_answered_500 (new_client : Client -> option string) {World}
    (send : World -> Request -> World * (string + Response))
    (cfg : Config) (payload : dict) (w : World) (req : Request) (msg : string) :
  In (EvGet req (inl msg)) (events (fetch_all new_client send cfg payload w)) ->
  result (fetch_all new_client send cfg payload w) = inl (HTTPException 500 msg).
Proof.
  intros Hin.
  exact (fetch_all_answers new_client send cfg payload w req (inl msg) (TransportError msg)
           Hin eq_refl).
Qed.

Lemma transport_failure_answered_500_witness :
  result (fetch_all accepts
            (counting_send (upstream two_entries a_balance (inl "timed out")))
            sandbox [("accessToken", JStr "tok")] 0%nat)
  = inl (HTTPException 500 "timed out").
Proof.
  apply (transport_failure_answered_500 accepts
           (counting_send (upstream two_entries a_balance (inl "timed out")))
           sandbox [("accessToken", JStr "tok")] 0%nat
           (mkRequest (sandbox_client "tok") (Transactions (JStr "a1"))
              (Some [("count", JInt 50)]))).
  vm_compute. do 3 right. left. reflexivity.
Defined.

(** X6. A 2xx answer whose body does not decode as JSON ends the run
    with status 500 and the message of the decoding error as detail. *)
Theorem undecodable_body_answered_500 (new_client : Client -> option string) {World}
    (send : World -> Request -> World * (string + Response))
    (cfg : Config) (payload : dict) (w : World)
    (req : Request) (r : Response) (msg : string) :
  In (EvGet req (inr r)) (events (fetch_all new_client send cfg payload w)) ->
  is_success r = true ->
  json_body r = inl msg ->
  result (fetch_all new_client send cfg payload w) = inl (HTTPException 500 msg).
Proof.
  intros Hin Hok Hj.
  assert (He : answer_error (inr r) = Some (JSONDecodeError msg)).
  { unfold answer_error. now rewrite Hok, Hj. }
  exact (fetch_all_answers new_client send cfg payload w req (inr r) _ Hin He).
Qed.

Lemma undecodable_body_answered_500_witness :
  result (fetch_all accepts
            (counting_send
               (upstream
                  (inr (mkResponse 200 "<html>" (inl "Expecting value: line 1 column 1 (char 0)")))
                  a_balance some_transactions))
            sandbox [("accessToken", JStr "tok")] 0%nat)
  = inl (HTTPException 500 "Expecting value: line 1 column 1 (char 0)").
Proof.
  apply (undecodable_body_answered_500 accepts
           (counting_send
              (upstream
                 (inr (mkResponse 200 "<html>"
                         (inl "Expecting value: line 1 column 1 (char 0)")))
                 a_balance some_transactions))
           sandbox [("accessToken", JStr "tok")] 0%nat
           (mkRequest (sandbox_client "tok") Accounts None)
           (mkResponse 200 "<html>" (inl "Expecting value: line 1 column 1 (char 0)"))).
  - vm_compute. right. left. reflexivity.
  - reflexivity.
  - reflexivity.
Defined.

(** X7. The three ways through [_make_client].  In development or
    production with the certificate path or the key path unset or
    empty, it raises its [RuntimeError] and the constructor is not
    called.  In those two modes with both paths set, it is the call
    of [httpx.Client] on the base URL, the token with an empty
    password, the timeout of 30 and the pair of paths; in any other
    mode, the same call without a certificate.  So a client it returns
    is one the constructor accepted, with these arguments, and what it
    raises is its [RuntimeError] or what the constructor raised. *)
Theorem make_client_branches (new_client : Client -> option string)
    (cfg : Config) (token : json) :
  ((TELLER_ENV cfg = "development" \/ TELLER_ENV cfg = "production") ->
   (TELLER_CERT_PATH cfg = None \/ TELLER_CERT_PATH cfg = Some ""
    \/ TELLER_KEY_PATH cfg = None \/ TELLER_KEY_PATH cfg = Some "") ->
   _make_client new_client cfg token
   = inl (RuntimeError
            "TELLER_CERT_PATH and TELLER_KEY_PATH are required in development/production."))
  /\ (forall crt key,
         (TELLER_ENV cfg = "development" \/ TELLER_ENV cfg = "production") ->
         TELLER_CERT_PATH cfg = Some crt -> crt <> "" ->
         TELLER_KEY_PATH cfg = Some key -> key <> "" ->
         _make_client new_client cfg token
         = httpx_Client new_client
             (mkClient TELLER_API_BASE (token, "") timeout_30
                (Some (Some crt, Some key))))
  /\ (TELLER_ENV cfg <> "development" -> TELLER_ENV cfg <> "production" ->
      _make_client new_client cfg token
      = httpx_Client new_client (mkClient TELLER_API_BASE (token, "") timeout_30 None))
  /\ (forall c,
         _make_client new_client cfg token = inr c ->
         new_client c = None
         /\ base_url c = TELLER_API_BASE
         /\ auth c = (token, "")
         /\ timeout c = timeout_30
         /\ cert c = if requires_mtls cfg
                     then Some (TELLER_CERT_PATH cfg, TELLER_KEY_PATH cfg)
                     else None)
  /\ (forall e,
         _make_client new_client cfg token = inl e ->
         e = RuntimeError
               "TELLER_CERT_PATH and TELLER_KEY_PATH are required in development/production."
         \/ exists msg,
             new_client (mkClient TELLER_API_BASE (token, "") timeout_30
                           (if requires_mtls cfg
                            then Some (TELLER_CERT_PATH cfg, TELLER_KEY_PATH cfg)
                            else None)) = Some msg
             /\ e = ClientInitError msg).
Proof.
  split; [| split; [| split; [| split]]].
  - intros Henv Hpath. apply make_client_falsy_paths.
    + unfold requires_mtls. destruct Henv as [-> | ->]; reflexivity.
    + destruct Hpath as [-> | [-> | [-> | ->]]]; auto.
  - intros crt key Henv Hc Hcn Hk Hkn. unfold _make_client.
    assert (Hm : requires_mtls cfg = true).
    { unfold requires_mtls. destruct Henv as [-> | ->]; reflexivity. }
    rewrite Hm, Hc, Hk, (truthy_opt_some crt Hcn), (truthy_opt_some key Hkn).
    reflexivity.
  - intros Hd Hp. unfold _make_client, requires_mtls.
    apply String.eqb_neq in Hd. apply String.eqb_neq in Hp. rewrite Hd, Hp.
    reflexivity.
  - intros c H. unfold _make_client in H.
    destruct (requires_mtls cfg).
    + destruct (negb (truthy_opt (TELLER_CERT_PATH cfg))
                || negb (truthy_opt (TELLER_KEY_PATH cfg))); [discriminate |].
      apply httpx_Client_built in H. destruct H as [-> Hn]. repeat split. exact Hn.
    + apply httpx_Client_built in H. destruct H as [-> Hn]. repeat split. exact Hn.
  - intros e H. unfold _make_client in H.
    destruct (requires_mtls cfg).
    + destruct (negb (truthy_opt (TELLER_CERT_PATH cfg))
                || negb (truthy_opt (TELLER_KEY_PATH cfg))).
      * inversion H. now left.
      * right. apply httpx_Client_raised in H. exact H.
    + right. apply httpx_Client_raised in H. exact H.
Qed.

Lemma make_client_branches_witness :
  _make_client accepts (mkConfig "production" (Some "") (Some "/etc/key.pem")) (JStr "tok")
  = inl (RuntimeError
           "TELLER_CERT_PATH and TELLER_KEY_PATH are required in development/production.")
  /\ _make_client accepts
       (mkConfig "production" (Some "/etc/cert.pem") (Some "/etc/key.pem")) (JStr "tok")
     = httpx_Client accepts
         (mkClient TELLER_API_BASE (JStr "tok", "") timeout_30
            (Some (Some "/etc/cert.pem", Some "/etc/key.pem")))
  /\ _make_client accepts
       (mkConfig "staging" (Some "/etc/cert.pem") (Some "/etc/key.pem")) (JStr "tok")
     = httpx_Client accepts (mkClient TELLER_API_BASE (JStr "tok", "") timeout_30 None).
Proof.
  split; [| split].
  - apply (proj1 (make_client_branches accepts
                    (mkConfig "production" (Some "") (Some "/etc/key.pem")) (JStr "tok"))).
    + right. reflexivity.
    + right. left. reflexivity.
  - apply (proj1 (proj2 (make_client_branches accepts
                           (mkConfig "production" (Some "/etc/cert.pem")
                              (Some "/etc/key.pem")) (JStr "tok")))).
    + right. reflexivity.
    + reflexivity.
    + discriminate.
    + reflexivity.
    + discriminate.
  - apply (proj1 (proj2 (proj2 (make_client_branches accepts
                                  (mkConfig "staging" (Some "/etc/cert.pem")
                                     (Some "/etc/key.pem")) (JStr "tok"))))).
    + discriminate.
    + discriminate.
Defined.

(** X8. The handler answers with its 400 and an empty trace exactly
    when the access token is falsy: unbound, null, the empty string,
    but also 0, false, an empty list or an empty object.  Every truthy
    token gets past the check. *)
Theorem falsy_token_rejected_exactly (new_client : Client -> option string) {World}
    (send : World -> Request -> World * (string + Response))
    (cfg : Config) (payload : dict) (w : World) :
  fetch_all new_client send cfg payload w
  = mkRun w [] (inl (HTTPException 400 "Missing 'accessToken' in request body"))
  <-> truthy (dict_get payload "accessToken") = false.
Proof.
  rewrite fetch_all_run.
  destruct (truthy (dict_get payload "accessToken")).
  - split; [| discriminate].
    destruct (_make_client new_client cfg (dict_get payload "accessToken")) as [e | c] eqn:Emk.
    + destruct (make_client_raised new_client cfg _ _ Emk) as [-> | [crt [msg [_ ->]]]];
        cbn; intros H; inversion H.
    + cbv zeta. intros H. inversion H.
  - split; reflexivity.
Qed.

Lemma falsy_token_rejected_exactly_witness :
  fetch_all accepts (counting_send (upstream two_entries a_balance some_transactions))
    sandbox [("accessToken", JInt 0)] 0%nat
  = mkRun 0%nat [] (inl (HTTPException 400 "Missing 'accessToken' in request body")).
Proof.
  apply (proj2 (falsy_token_rejected_exactly accepts
                  (counting_send (upstream two_entries a_balance some_transactions))
                  sandbox [("accessToken", JInt 0)] 0%nat)).
  reflexivity.
Defined.

(** X9. A run that returns has sent the accounts request and exactly
    two requests per result: its trace has three events (open,
    accounts, close) plus two for every account in the response.
    Entries without an identifier cost no request. *)
Theorem two_requests_per_result (new_client : Client -> option string) {World}
    (send : World -> Request -> World * (string + Response))
    (cfg : Config) (payload : dict) (w : World) (out : FetchResponse) :
  result (fetch_all new_client send cfg payload w) = inr out ->
  length (events (fetch_all new_client send cfg payload w))
  = (3 + 2 * length (accounts out))%nat.
Proof.
  intros H.
  destruct (fetch_all_success new_client send cfg payload w out H)
    as [c [r [entries [rest [_ [Hev [_ [_ [_ [_ Hlen]]]]]]]]]].
  rewrite Hev. cbn [length]. rewrite length_app, Hlen. cbn [length]. lia.
Qed.

Lemma two_requests_per_result_witness :
  length (events (fetch_all accepts
                    (counting_send (upstream two_entries a_balance some_transactions))
                    sandbox [("accessToken", JStr "tok")] 0%nat))
  = (3 + 2 * 1)%nat.
Proof.
  apply (two_requests_per_result accepts
           (counting_send (upstream two_entries a_balance some_transactions))
           sandbox [("accessToken", JStr "tok")] 0%nat
           (mkFetchResponse
              [mkAccountResult
                 (mkAccountOut (JStr "a1") (JStr "Checking") (JStr "Chase")
                    (JStr "1234") (JStr "depository"))
                 (mkBalanceOut (JStr "10.00") (JStr "12.50"))
                 [JObj [("id", JStr "t1"); ("amount", JStr "-3.20")]]])).
  vm_compute. reflexivity.
Defined.

(** X10. A response is never partial: when the handler returns, the
    accounts call was answered 2xx with a list, every entry of that
    list is an object, and the response holds, position by position,
    one result for each entry with a truthy [id], with the account
    fields of that entry. *)
Theorem response_lists_every_identified_entry (new_client : Client -> option string) {World}
    (send : World -> Request -> World * (string + Response))
    (cfg : Config) (payload : dict) (w : World) (out : FetchResponse) :
  result (fetch_all new_client send cfg payload w) = inr out ->
  exists c r entries,
    In (EvGet (mkRequest c Accounts None) (inr r))
      (events (fetch_all new_client send cfg payload w))
    /\ is_success r = true
    /\ json_body r = inr (JList entries)
    /\ forallb is_dict entries = true
    /\ Forall2 result_of_entry (filter has_id entries) (accounts out).
Proof.
  intros H.
  destruct (fetch_all_success new_client send cfg payload w out H)
    as [c [r [entries [rest [_ [Hev [Hok [Hj [Hd [Hall _]]]]]]]]]].
  exists c, r, entries. rewrite Hev.
  repeat split; try assumption. right. now left.
Qed.

Lemma response_lists_every_identified_entry_witness :
  exists c r entries,
    In (EvGet (mkRequest c Accounts None) (inr r))
      (events (fetch_all accepts
                 (counting_send (upstream two_entries a_balance some_transactions))
                 sandbox [("accessToken", JStr "tok")] 0%nat))
    /\ is_success r = true
    /\ json_body r = inr (JList entries)
    /\ forallb is_dict entries = true
    /\ Forall2 result_of_entry (filter has_id entries)
         (accounts
            (mkFetchResponse
               [mkAccountResult
                  (mkAccountOut (JStr "a1") (JStr "Checking") (JStr "Chase")
                     (JStr "1234") (JStr "depository"))
                  (mkBalanceOut (JStr "10.00") (JStr "12.50"))
                  [JObj [("id", JStr "t1"); ("amount", JStr "-3.20")]]])).
Proof.
  apply (response_lists_every_identified_entry accepts
           (counting_send (upstream two_entries a_balance some_transactions))
           sandbox [("accessToken", JStr "tok")] 0%nat).
  vm_compute. reflexivity.
Defined.

(** X11. What the loop body does when it returns.  For an entry with a
    falsy [id] it leaves the results, the world and the trace as they
    were.  Otherwise it has sent exactly the balances and the
    transactions request of that [id], both answered 2xx with a body
    that decodes, and has appended one result.  The [id] of the result
    is the one of the entry.  Its balance holds the [available] and
    the [ledger] of the balances body when that is an object, and two
    nulls when that body is falsy.  Its transactions are the list the
    transactions call answered, and the empty list when that answer is
    not a list. *)
Theorem loop_body_result_read_from_its_answers {World}
    (send : World -> Request -> World * (string + Response))
    (client : Client) (max_count : json) (results rs : list AccountResult)
    (d : dict) (w : World) :
  result (fetch_account send client max_count results (JObj d) w) = inr rs ->
  (truthy (dict_get d "id") = false
   /\ rs = results
   /\ events (fetch_account send client max_count results (JObj d) w) = []
   /\ world_after (fetch_account send client max_count results (JObj d) w) = w)
  \/ (truthy (dict_get d "id") = true
      /\ exists rb rt vb vt r,
          events (fetch_account send client max_count results (JObj d) w)
          = [EvGet (mkRequest client (Balances (dict_get d "id")) None) (inr rb);
             EvGet (mkRequest client (Transactions (dict_get d "id"))
                      (Some [("count", max_count)])) (inr rt)]
          /\ is_success rb = true /\ json_body rb = inr vb
          /\ is_success rt = true /\ json_body rt = inr vt
          /\ rs = (results ++ [r])%list
          /\ out_id (account r) = dict_get d "id"
          /\ (forall m, vb = JObj m ->
                balance r = mkBalanceOut (dict_get m "available") (dict_get m "ledger"))
          /\ (truthy vb = false -> balance r = mkBalanceOut JNull JNull)
          /\ (forall l, vt = JList l -> transactions r = l)
          /\ (is_list vt = false -> transactions r = [])).
Proof.
  intros H.
  destruct (fetch_account_success send client max_count results (JObj d) w rs H)
    as [d' [Hd [Hskip | [Hid [rb [rt [vb [vt [r Hr]]]]]]]]];
    inversion Hd; subst d'.
  - now left.
  - right. split; [assumption |]. exists rb, rt, vb, vt, r.
    destruct Hr as [Hev [Hb [Ht [Hrs [[Hacct _] [Hav [Hle Htx]]]]]]].
    pose proof (fetch_account_answers send client max_count results (JObj d) w) as Hans.
    unfold answers_raise in Hans. rewrite Hev, H in Hans.
    assert (Hgood : forall req r0,
               In (EvGet req (inr r0))
                 [EvGet (mkRequest client (Balances (dict_get d "id")) None) (inr rb);
                  EvGet (mkRequest client (Transactions (dict_get d "id"))
                           (Some [("count", max_count)])) (inr rt)] ->
               is_success r0 = true).
    { intros req r0 Hin. destruct (is_success r0) eqn:Es; [reflexivity |].
      specialize (Hans req (inr r0) (HTTPStatusError r0) Hin).
      cbn [answer_error] in Hans. rewrite Es in Hans. specialize (Hans eq_refl).
      discriminate Hans. }
    split; [exact Hev |].
    split; [apply (Hgood (mkRequest client (Balances (dict_get d "id")) None));
            left; reflexivity |].
    split; [exact Hb |].
    split; [apply (Hgood (mkRequest client (Transactions (dict_get d "id"))
                            (Some [("count", max_count)])));
            right; left; reflexivity |].
    split; [exact Ht |]. split; [exact Hrs |].
    split; [cbn [py_get] in Hacct; congruence |].
    destruct (balance r) as [av le]. cbn [out_available out_ledger] in Hav, Hle.
    split; [| split; [| split]].
    + intros m ->. unfold py_or in Hav, Hle.
      destruct m as [| kv m]; cbn in Hav, Hle |- *; congruence.
    + intros Hf. unfold py_or in Hav, Hle. rewrite Hf in Hav, Hle.
      cbn in Hav, Hle. congruence.
    + intros l ->. exact Htx.
    + intros Hl. rewrite Htx. destruct vt; try reflexivity. discriminate Hl.
Qed.

Lemma loop_body_result_read_from_its_answers_witness :
  exists rs rb rt vb vt r,
    result (fetch_account
              (counting_send (upstream two_entries a_balance some_transactions))
              (sandbox_client "tok") (JInt 50) [] checking 0%nat) = inr rs
    /\ events (fetch_account
                 (counting_send (upstream two_entries a_balance some_transactions))
                 (sandbox_client "tok") (JInt 50) [] checking 0%nat)
       = [EvGet (mkRequest (sandbox_client "tok") (Balances (JStr "a1")) None) (inr rb);
          EvGet (mkRequest (sandbox_client "tok") (Transactions (JStr "a1"))
                   (Some [("count", JInt 50)])) (inr rt)]
    /\ json_body rb = inr vb /\ json_body rt = inr vt
    /\ rs = ([] ++ [r])%list
    /\ (forall m, vb = JObj m ->
          balance r = mkBalanceOut (dict_get m "available") (dict_get m "ledger"))
    /\ (forall l, vt = JList l -> transactions r = l).
Proof.
  eexists.
  destruct (loop_body_result_read_from_its_answers
              (counting_send (upstream two_entries a_balance some_transactions))
              (sandbox_client "tok") (JInt 50) [] _
              [("id", JStr "a1"); ("name", JStr "Checking");
               ("institution", JObj [("name", JStr "Chase")]);
               ("last_four", JStr "1234"); ("type", JStr "depository")]
              0%nat eq_refl)
    as [[Hid _] | [_ [rb [rt [vb [vt [r H]]]]]]].
  - discriminate Hid.
  - exists rb, rt, vb, vt, r.
    destruct H as [Hev [_ [Hb [_ [Ht [Hrs [_ [Hbal [_ [Htx _]]]]]]]]]].
    split; [reflexivity |]. repeat split; assumption.
Defined.

(** X12. A balances body that is falsy (null, an empty object, but also
    0, false, an empty string or list) raises nothing: the account
    gets a balance whose [available] and [ledger] are both null. *)
Theorem falsy_balance_body_gives_null_balance {World}
    (send : World -> Request -> World * (string + Response))
    (client : Client) (max_count : json) (results : list AccountResult)
    (d : dict) (w : World) (rb rt : Response) (vb vt : json) :
  dict_or_falsy (dict_get d "institution") = true ->
  truthy (dict_get d "id") = true ->
  snd (send w (mkRequest client (Balances (dict_get d "id")) None)) = inr rb ->
  is_success rb = true ->
  json_body rb = inr vb ->
  truthy vb = false ->
  snd (send (fst (send w (mkRequest client (Balances (dict_get d "id")) None)))
         (mkRequest client (Transactions (dict_get d "id"))
            (Some [("count", max_count)]))) = inr rt ->
  is_success rt = true ->
  json_body rt = inr vt ->
  exists r,
    result (fetch_account send client max_count results (JObj d) w)
    = inr (results ++ [r])%list
    /\ balance r = mkBalanceOut JNull JNull.
Proof.
  intros Hinst Hid Hb Hbs Hbj Hvb Ht Hts Htj.
  rewrite (fetch_account_answered send client max_count results d w rb vb rt vt
             Hid Hb Hbs Hbj Ht Hts Htj).
  assert (Hin : exists x, institution_name (JObj d) = inr x).
  { unfold institution_name. cbn [py_get]. now apply py_get_dict_or_falsy. }
  destruct Hin as [x ->]. unfold py_or. rewrite Hvb. cbn.
  eexists. split; reflexivity.
Qed.

Lemma falsy_balance_body_gives_null_balance_witness :
  exists r,
    result (fetch_account
              (counting_send (upstream two_entries (ok_json "null" JNull) some_transactions))
              (sandbox_client "tok") (JInt 50) [] checking 0%nat)
    = inr ([] ++ [r])%list
    /\ balance r = mkBalanceOut JNull JNull.
Proof.
  apply (falsy_balance_body_gives_null_balance
           (counting_send (upstream two_entries (ok_json "null" JNull) some_transactions))
           (sandbox_client "tok") (JInt 50) []
           [("id", JStr "a1"); ("name", JStr "Checking");
            ("institution", JObj [("name", JStr "Chase")]);
            ("last_four", JStr "1234"); ("type", JStr "depository")]
           0%nat
           (mkResponse 200 "null" (inr JNull))
           (mkResponse 200 "[{...}]"
              (inr (JList [JObj [("id", JStr "t1"); ("amount", JStr "-3.20")]])))
           JNull
           (JList [JObj [("id", JStr "t1"); ("amount", JStr "-3.20")]]));
    reflexivity.
Defined.

(** X13. An entry whose [institution] is truthy but not an object (a
    plain string, say) makes the loop body raise, after both calls
    for the account were answered well, the [AttributeError] of
    calling [get] on a value of that type. *)
Theorem non_object_institution_raises {World}
    (send : World -> Request -> World * (string + Response))
    (client : Client) (max_count : json) (results : list AccountResult)
    (d : dict) (w : World) (rb rt : Response) (vb vt : json) :
  truthy (dict_get d "institution") = true ->
  is_dict (dict_get d "institution") = false ->
  truthy (dict_get d "id") = true ->
  snd (send w (mkRequest client (Balances (dict_get d "id")) None)) = inr rb ->
  is_success rb = true ->
  json_body rb = inr vb ->
  snd (send (fst (send w (mkRequest client (Balances (dict_get d "id")) None)))
         (mkRequest client (Transactions (dict_get d "id"))
            (Some [("count", max_count)]))) = inr rt ->
  is_success rt = true ->
  json_body rt = inr vt ->
  result (fetch_account send client max_count results (JObj d) w)
  = inl (AttributeError
           ("'" ++ type_name (dict_get d "institution")
                ++ "' object has no attribute 'get'")).
Proof.
  intros Htv Hnd Hid Hb Hbs Hbj Ht Hts Htj.
  rewrite (fetch_account_answered send client max_count results d w rb vb rt vt
             Hid Hb Hbs Hbj Ht Hts Htj).
  unfold institution_name. cbn [py_get]. unfold py_or. rewrite Htv.
  destruct (dict_get d "institution"); try discriminate; reflexivity.
Qed.

Lemma non_object_institution_raises_witness :
  result (fetch_account
            (counting_send (upstream two_entries a_balance some_transactions))
            (sandbox_client "tok") (JInt 50) []
            (JObj [("id", JStr "a1"); ("institution", JStr "Chase")]) 0%nat)
  = inl (AttributeError "'str' object has no attribute 'get'").
Proof.
  apply (non_object_institution_raises
           (counting_send (upstream two_entries a_balance some_transactions))
           (sandbox_client "tok") (JInt 50) []
           [("id", JStr "a1"); ("institution", JStr "Chase")] 0%nat
           (mkResponse 200 "{...}"
              (inr (JObj [("available", JStr "10.00"); ("ledger", JStr "12.50")])))
           (mkResponse 200 "[{...}]"
              (inr (JList [JObj [("id", JStr "t1"); ("amount", JStr "-3.20")]])))
           (JObj [("available", JStr "10.00"); ("ledger", JStr "12.50")])
           (JList [JObj [("id", JStr "t1"); ("amount", JStr "-3.20")]]));
    reflexivity.
Defined.

(** X14. A balances body that is truthy but not an object (a non-empty
    list, a number, a string) makes the loop body raise the
    [AttributeError] of calling [get] on a value of that type, for an
    entry that is otherwise well formed and after both calls were
    answered well. *)
Theorem non_object_balance_raises {World}
    (send : World -> Request -> World * (string + Response))
    (client : Client) (max_count : json) (results : list AccountResult)
    (d : dict) (w : World) (rb rt : Response) (vb vt : json) :
  dict_or_falsy (dict_get d "institution") = true ->
  truthy (dict_get d "id") = true ->
  snd (send w (mkRequest client (Balances (dict_get d "id")) None)) = inr rb ->
  is_success rb = true ->
  json_body rb = inr vb ->
  truthy vb = true ->
  is_dict vb = false ->
  snd (send (fst (send w (mkRequest client (Balances (dict_get d "id")) None)))
         (mkRequest client (Transactions (dict_get d "id"))
            (Some [("count", max_count)]))) = inr rt ->
  is_success rt = true ->
  json_body rt = inr vt ->
  result (fetch_account send client max_count results (JObj d) w)
  = inl (AttributeError ("'" ++ type_name vb ++ "' object has no attribute 'get'")).
Proof.
  intros Hinst Hid Hb Hbs Hbj Htv Hnd Ht Hts Htj.
  rewrite (fetch_account_answered send client max_count results d w rb vb rt vt
             Hid Hb Hbs Hbj Ht Hts Htj).
  assert (Hin : exists x, institution_name (JObj d) = inr x).
  { unfold institution_name. cbn [py_get]. now apply py_get_dict_or_falsy. }
  destruct Hin as [x ->]. unfold py_or. rewrite Htv.
  destruct vb; try discriminate; reflexivity.
Qed.

Lemma non_object_balance_raises_witness :
  result (fetch_account
            (counting_send (upstream two_entries (ok_json "12.5" (JInt 12)) some_transactions))
            (sandbox_client "tok") (JInt 50) [] checking 0%nat)
  = inl (AttributeError "'int' object has no attribute 'get'").
Proof.
  apply (non_object_balance_raises
           (counting_send (upstream two_entries (ok_json "12.5" (JInt 12)) some_transactions))
           (sandbox_client "tok") (JInt 50) []
           [("id", JStr "a1"); ("name", JStr "Checking");
            ("institution", JObj [("name", JStr "Chase")]);
            ("last_four", JStr "1234"); ("type", JStr "depository")]
           0%nat
           (mkResponse 200 "12.5" (inr (JInt 12)))
           (mkResponse 200 "[{...}]"
              (inr (JList [JObj [("id", JStr "t1"); ("amount", JStr "-3.20")]])))
           (JInt 12)
           (JList [JObj [("id", JStr "t1"); ("amount", JStr "-3.20")]]));
    reflexivity.
Defined.

(** X15. When the first entry of the accounts list is not an object,
    the run is: open, the accounts request, close; no balances or
    transactions request is sent, and the caller gets status 500 with
    the [AttributeError] message of that entry's type as detail. *)
Theorem first_entry_not_an_object (new_client : Client -> option string) {World}
    (send : World -> Request -> World * (string + Response))
    (cfg : Config) (payload : dict) (w w1 : World) (c : Client) (r : Response)
    (x : json) (entries : list json) :
  truthy (dict_get payload "accessToken") = true ->
  _make_client new_client cfg (dict_get payload "accessToken") = inr c ->
  send w (mkRequest c Accounts None) = (w1, inr r) ->
  is_success r = true ->
  json_body r = inr (JList (x :: entries)) ->
  is_dict x = false ->
  fetch_all new_client send cfg payload w
  = mkRun w1
      [EvOpen c; EvGet (mkRequest c Accounts None) (inr r); EvClose c]
      (inl (HTTPException 500
              ("'" ++ type_name x ++ "' object has no attribute 'get'"))).
Proof.
  intros Ht Hc Hs Hok Hj Hx.
  rewrite fetch_all_run, Ht, Hc. cbv zeta.
  assert (Hbody : fetch_all_with_body send
                    (py_or (dict_get payload "count") (JInt 50)) c w
                  = mkRun w1 [EvGet (mkRequest c Accounts None) (inr r)]
                      (inl (AttributeError
                              ("'" ++ type_name x ++ "' object has no attribute 'get'")))).
  { unfold fetch_all_with_body. rewrite get_checked_run. cbv zeta.
    rewrite Hs. cbn [fst snd]. rewrite Hok, bind_response_json, Hj.
    cbn [for_each]. unfold bind. cbv zeta.
    rewrite (fetch_account_non_dict send c _ [] x w1 Hx).
    cbn [world_after events result]. reflexivity. }
  rewrite Hbody. reflexivity.
Qed.

Lemma first_entry_not_an_object_witness :
  fetch_all accepts
    (counting_send
       (upstream (ok_json "[null, {...}]" (JList [JNull; checking]))
          a_balance some_transactions))
    sandbox [("accessToken", JStr "tok")] 0%nat
  = mkRun 1%nat
      [EvOpen (sandbox_client "tok");
       EvGet (mkRequest (sandbox_client "tok") Accounts None)
         (inr (mkResponse 200 "[null, {...}]" (inr (JList [JNull; checking]))));
       EvClose (sandbox_client "tok")]
      (inl (HTTPException 500 ("'" ++ type_name JNull ++ "' object has no attribute 'get'"))).
Proof.
  apply (first_entry_not_an_object accepts
           (counting_send
              (upstream (ok_json "[null, {...}]" (JList [JNull; checking]))
                 a_balance some_transactions))
           sandbox [("accessToken", JStr "tok")] 0%nat 1%nat (sandbox_client "tok")
           (mkResponse 200 "[null, {...}]" (inr (JList [JNull; checking])))
           JNull [checking]); reflexivity.
Defined.

(** X16. The mode is read without regard to case and to white space
    around it: an environment value that lower-cases to [development]
    or [production], with any white space before and after, gives that
    mode, and the client then requires the certificate paths. *)
Theorem teller_env_case_and_space_insensitive
    (l s r : string) (cert_path key_path : option string) :
  all_space l = true ->
  all_space r = true ->
  str_lower s = "development" \/ str_lower s = "production" ->
  TELLER_ENV (load_config (Some (l ++ s ++ r)) cert_path key_path) = str_lower s
  /\ requires_mtls (load_config (Some (l ++ s ++ r)) cert_path key_path) = true.
Proof.
  intros Hl Hr Hs.
  assert (Hne : l ++ s ++ r <> "").
  { destruct s as [| c s].
    - destruct Hs as [Hs | Hs]; discriminate.
    - destruct l; discriminate. }
  assert (Henv : TELLER_ENV (load_config (Some (l ++ s ++ r)) cert_path key_path)
                 = str_lower s).
  { unfold load_config. cbn [TELLER_ENV]. rewrite (truthy_opt_some _ Hne).
    rewrite !str_lower_app, (str_lower_space l Hl), (str_lower_space r Hr).
    unfold str_strip. rewrite (lstrip_space_app l _ Hl).
    destruct Hs as [-> | ->].
    - change (lstrip ("development" ++ r)) with ("development" ++ r).
      rewrite (rstrip_app_space _ r Hr). reflexivity.
    - change (lstrip ("production" ++ r)) with ("production" ++ r).
      rewrite (rstrip_app_space _ r Hr). reflexivity. }
  split; [exact Henv |].
  unfold requires_mtls. rewrite Henv. destruct Hs as [-> | ->]; reflexivity.
Qed.

Lemma teller_env_case_and_space_insensitive_witness :
  TELLER_ENV (load_config (Some (" " ++ "Production" ++ " ")) None None) = "production"
  /\ requires_mtls (load_config (Some (" " ++ "Production" ++ " ")) None None) = true.
Proof.
  apply (teller_env_case_and_space_insensitive " " "Production" " " None None).
  - reflexivity.
  - reflexivity.
  - right. reflexivity.
Defined.

(** X17. An unset or empty TELLER_ENV gives the mode [sandbox]; a value
    made of white space only gives the empty mode, not [sandbox].  In
    both cases [_make_client] raises no configuration error, whatever
    the two paths are: it is the call of the constructor on the base
    URL, the token with an empty password and the timeout of 30,
    without a certificate. *)
Theorem blank_teller_env (new_client : Client -> option string)
    (s : string) (cert_path key_path : option string) (token : json) :
  all_space s = true ->
  TELLER_ENV (load_config None cert_path key_path) = "sandbox"
  /\ TELLER_ENV (load_config (Some s) cert_path key_path)
     = (if (s =? "")%string then "sandbox" else "")
  /\ _make_client new_client (load_config (Some s) cert_path key_path) token
     = httpx_Client new_client (mkClient TELLER_API_BASE (token, "") timeout_30 None).
Proof.
  intros Hs.
  assert (Henv : TELLER_ENV (load_config (Some s) cert_path key_path)
                 = (if (s =? "")%string then "sandbox" else "")).
  { destruct s as [| c s]; [reflexivity |].
    unfold load_config. cbn [TELLER_ENV truthy_opt String.eqb negb].
    rewrite (str_lower_space _ Hs). unfold str_strip.
    rewrite (lstrip_space _ Hs). reflexivity. }
  split; [reflexivity |]. split; [exact Henv |].
  unfold _make_client, requires_mtls. rewrite Henv.
  destruct (s =? "")%string; reflexivity.
Qed.

Lemma blank_teller_env_witness :
  TELLER_ENV (load_config None (Some "/etc/cert.pem") (Some "/etc/key.pem")) = "sandbox"
  /\ TELLER_ENV (load_config (Some "  ") (Some "/etc/cert.pem") (Some "/etc/key.pem"))
     = (if ("  " =? "")%string then "sandbox" else "")
  /\ _make_client accepts
       (load_config (Some "  ") (Some "/etc/cert.pem") (Some "/etc/key.pem")) (JStr "tok")
     = httpx_Client accepts (mkClient TELLER_API_BASE (JStr "tok", "") timeout_30 None).
Proof.
  apply (blank_teller_env accepts "  " (Some "/etc/cert.pem") (Some "/etc/key.pem")
           (JStr "tok")).
  reflexivity.
Defined.
